(** * SCMI SMC/HVC transport (drivers/firmware/arm_scmi/smc.c)

    A shallow embedding of the transport driver and the properties of its
    channel life cycle, conduit selection and synchronous send path.

    C objects reached through pointers live in finite maps keyed by their
    address ([None] is the NULL pointer); every function of the driver is a
    computation over one [world] that threads those maps, the process-wide
    conduit pointer and a log of the calls made to the rest of the kernel and
    to the firmware.  Dereferencing NULL or a dangling pointer is a fault. *)

From Stdlib Require Import ZArith Lia Ascii String.
From stdpp Require Import gmap strings list fin_maps.

Local Open Scope Z_scope.

(** ** C integer types *)

Module CInt.

(** The two data models the driver is built for: 32-bit ARM and arm64. *)
Inductive data_model := ILP32 | LP64.

Definition BITS_PER_LONG (dm : data_model) : Z :=
  match dm with ILP32 => 32 | LP64 => 64 end.

(** Two's complement reading of the low [w] bits of [z]. *)
Definition wrap_signed (w z : Z) : Z :=
  let m := z mod 2 ^ w in
  if m <? 2 ^ (w - 1) then m else m - 2 ^ w.

Definition wrap_unsigned (w z : Z) : Z := z mod 2 ^ w.

(** Conversion to [int], [u32], [unsigned long] and [long]. *)
Definition to_int (z : Z) : Z := wrap_signed 32 z.
Definition to_u32 (z : Z) : Z := wrap_unsigned 32 z.
Definition to_ulong (dm : data_model) (z : Z) : Z :=
  wrap_unsigned (BITS_PER_LONG dm) z.
Definition to_long (dm : data_model) (z : Z) : Z :=
  wrap_signed (BITS_PER_LONG dm) z.

Definition is_int (z : Z) : Prop := - 2 ^ 31 <= z < 2 ^ 31.
Definition is_u32 (z : Z) : Prop := 0 <= z < 2 ^ 32.
Definition is_ulong (dm : data_model) (z : Z) : Prop :=
  0 <= z < 2 ^ BITS_PER_LONG dm.

End CInt.
Export CInt.

(** ** Error numbers (include/uapi/asm-generic/errno*.h) *)

Definition ENXIO : Z := 6.
Definition ENOMEM : Z := 12.
Definition ENODEV : Z := 19.
Definition EINVAL : Z := 22.
Definition ENODATA : Z := 61.
Definition EADDRNOTAVAIL : Z := 99.

(** ** C strings

    A C string is the sequence of its characters before the terminating NUL.
    [strcmp] returns the difference of the first two characters that differ
    (the terminator counting as 0). *)

Definition char_code (a : ascii) : Z := Z.of_nat (nat_of_ascii a).

Fixpoint strcmp (s1 s2 : string) : Z :=
  match s1, s2 with
  | EmptyString, EmptyString => 0
  | EmptyString, String b _ => 0 - char_code b
  | String a _, EmptyString => char_code a - 0
  | String a r1, String b r2 =>
      if decide (a = b) then strcmp r1 r2 else char_code a - char_code b
  end.


(** ** Device tree

    The configuration subsystem (drivers/of) is not part of this file's
    sources; the driver uses five of its functions. *)

Definition node := nat.

(** Modelled from the spec: the value of a configuration property, by the way
    the driver reads it (a string, a 32-bit integer, a list of references to
    other nodes). *)
Inductive property :=
| PropString (s : string)
| PropU32 (v : Z)
| PropPhandle (targets : list node).

(** struct resource and resource_size() of include/linux/ioport.h: the
    number of bytes from [start] to [end] inclusive, computed in
    [resource_size_t], an unsigned integer of [bits] bits, so that it wraps
    (a range that covers the whole address space has size 0). *)
Record resource := { res_start : Z; res_end : Z }.

Definition resource_size (bits : Z) (r : resource) : Z :=
  wrap_unsigned bits (res_end r - res_start r + 1).

(** Modelled from the spec: the platform configuration, as the properties of
    every node, the nodes reachable by path, and the physical ranges a node
    translates to. *)
Record device_tree := {
  dt_nodes : gmap node (gmap string property);
  dt_paths : gmap string node;
  dt_reg : gmap node (list resource);
}.

(** Modelled from the spec: the property [name] of a node, if the node is not
    NULL and has it. *)
Definition dt_property (dt : device_tree) (np : option node) (name : string)
  : option property :=
  n ← np; props ← dt_nodes dt !! n; props !! name.

(** Modelled from the spec: of_parse_phandle(), the node the [index]-th
    reference of property [name] points to, or NULL. *)
Definition dt_parse_phandle (dt : device_tree) (np : option node)
    (name : string) (index : nat) : option node :=
  match dt_property dt np name with
  | Some (PropPhandle targets) => targets !! index
  | _ => None
  end.

(** Modelled from the spec: of_property_read_u32(), the 32-bit value of the
    property or a negative error code when it is missing or has no such
    value. *)
Definition dt_read_u32 (dt : device_tree) (np : option node) (name : string)
  : Z + Z :=
  match dt_property dt np name with
  | Some (PropU32 v) => inr (to_u32 v)
  | Some _ => inl (- ENODATA)
  | None => inl (- EINVAL)
  end.

(** Modelled from the spec: of_property_read_string(), the string value of the
    property or a negative error code when it is missing or has no such
    value. *)
Definition dt_read_string (dt : device_tree) (np : option node) (name : string)
  : Z + string :=
  match dt_property dt np name with
  | Some (PropString s) => inr s
  | Some _ => inl (- ENODATA)
  | None => inl (- EINVAL)
  end.

(** Modelled from the spec: of_address_to_resource(), the translation of the
    [index]-th range of a node to a physical base and size, or a negative
    error code (also for a NULL node). *)
Definition dt_address_to_resource (dt : device_tree) (np : option node)
    (index : nat) : Z + resource :=
  match n ← np; ranges ← dt_reg dt !! n; ranges !! index with
  | Some r => inr r
  | None => inl (- EINVAL)
  end.

(** ** Shared memory area

    The layout of the area and the four primitives over it (shmem.c) are not
    part of this file's sources.  The [region_] functions give the effect of a
    primitive on the contents of an area; the driver reaches them through a
    pointer, below. *)

(** Modelled from the spec: struct scmi_shared_mem, with the fields of the
    layout table: reserved (0x00), channel_status (0x04), flags (0x10), length
    (0x18), message_header (0x1C) and the payload (0x20). *)
Record scmi_shared_mem := {
  shm_reserved : Z;
  shm_channel_status : Z;
  shm_flags : Z;
  shm_length : Z;
  shm_msg_header : Z;
  shm_msg_payload : list Z;
}.

(** Modelled from the spec: the part of a transfer (struct scmi_xfer) this
    layer hands to the shared-memory primitives: the packed 32-bit message
    header, the bytes to transmit, and the receive descriptor (capacity,
    received bytes, received length). *)
Record scmi_xfer := {
  xfer_hdr : Z;
  xfer_tx : list Z;
  xfer_rx_size : Z;
  xfer_rx : list Z;
  xfer_rx_len : Z;
}.

(** Modelled from the spec: shmem_tx_prepare() clears the status and the
    flags, writes the length (4 + payload), the header and the payload. *)
Definition region_tx_prepare (shmem : scmi_shared_mem) (xfer : scmi_xfer)
  : scmi_shared_mem :=
  {| shm_reserved := shm_reserved shmem;
     shm_channel_status := 0;
     shm_flags := 0;
     shm_length := 4 + Z.of_nat (length (xfer_tx xfer));
     shm_msg_header := to_u32 (xfer_hdr xfer);
     shm_msg_payload :=
       xfer_tx xfer ++ drop (length (xfer_tx xfer)) (shm_msg_payload shmem) |}.

(** Modelled from the spec: shmem_read_header() returns the 32-bit header
    word at offset 0x1C. *)
Definition region_read_header (shmem : scmi_shared_mem) : Z :=
  to_u32 (shm_msg_header shmem).

(** Modelled from the spec: shmem_fetch_response() copies out
    max(length - 4, 0) bytes of payload, clamped to the receive capacity, and
    stores that length in the receive descriptor. *)
Definition region_fetch_response (shmem : scmi_shared_mem) (xfer : scmi_xfer)
  : scmi_xfer :=
  let len := Z.min (Z.max (shm_length shmem - 4) 0) (xfer_rx_size xfer) in
  {| xfer_hdr := xfer_hdr xfer;
     xfer_tx := xfer_tx xfer;
     xfer_rx_size := xfer_rx_size xfer;
     xfer_rx := take (Z.to_nat len) (shm_msg_payload shmem);
     xfer_rx_len := len |}.

(** Modelled from the spec: shmem_poll_done() tells whether bit 0 of the
    channel status is set. *)
Definition region_poll_done (shmem : scmi_shared_mem) (xfer : scmi_xfer)
  : bool :=
  Z.testbit (shm_channel_status shmem) 0.

(** ** Kernel objects *)

Definition ptr := nat.

(** struct device: the driver only reads [of_node]. *)
Record device := { dev_name : string; of_node : option node }.

(** struct scmi_chan_info: [dev] is only read, so the pointee is inlined. *)
Record scmi_chan_info := {
  chan_dev : device;
  transport_info : option ptr;
}.

(** struct scmi_smc, its fields prefixed (a projection is a global name). *)
Record scmi_smc := {
  smc_cinfo : option ptr;
  smc_shmem : option Z;
  smc_func_id : Z;
  smc_prot_id : Z;
}.

(** The two values [invoke_scmi_smc_fn] can point to. *)
Inductive scmi_smc_fn := fn_hvc | fn_smc.

Record arm_smccc_res := { a0 : Z; a1 : Z; a2 : Z; a3 : Z }.

(** Calls that leave this file, in program order. *)
Inductive event :=
| EvKzalloc (d : device) (p : option ptr)
| EvOfParsePhandle (np : option node) (name : string) (index : nat)
| EvOfAddressToResource (np : option node) (index : nat)
| EvOfNodePut (np : option node)
| EvIoremap (d : device) (start size : Z) (p : option Z)
| EvOfReadU32 (np : option node) (name : string)
| EvOfFindNodeByPath (path : string)
| EvOfReadString (np : option node) (name : string)
| EvDevErr (d : device) (msg : string)
| EvPrWarn (msg arg : string)
| EvShmemTxPrepare (shmem : Z)
| EvShmemReadHeader (shmem : Z)
| EvShmemFetchResponse (shmem : Z)
| EvShmemPollDone (shmem : Z)
| EvSmcccSmc (args : list Z)
| EvSmcccHvc (args : list Z)
| EvRxCallback (cinfo : option ptr) (hdr : Z)
| EvFreeChannel (cinfo : option ptr) (data : option ptr) (id : Z).

(** Mutable state: the file-scope conduit pointer, the channel descriptors of
    the protocol layer, the objects allocated by this driver, the mapped
    shared-memory areas (keyed by their physical base) and the call log. *)
Record world := {
  invoke_scmi_smc_fn : option scmi_smc_fn;
  chans : gmap ptr scmi_chan_info;
  smcs : gmap ptr scmi_smc;
  iomem : gmap Z scmi_shared_mem;
  trace : list event;
}.

Definition set_invoke (f : option scmi_smc_fn) (w : world) : world :=
  {| invoke_scmi_smc_fn := f; chans := chans w; smcs := smcs w;
     iomem := iomem w; trace := trace w |}.
Definition set_chans (m : gmap ptr scmi_chan_info) (w : world) : world :=
  {| invoke_scmi_smc_fn := invoke_scmi_smc_fn w; chans := m; smcs := smcs w;
     iomem := iomem w; trace := trace w |}.
Definition set_smcs (m : gmap ptr scmi_smc) (w : world) : world :=
  {| invoke_scmi_smc_fn := invoke_scmi_smc_fn w; chans := chans w; smcs := m;
     iomem := iomem w; trace := trace w |}.
Definition set_iomem (m : gmap Z scmi_shared_mem) (w : world) : world :=
  {| invoke_scmi_smc_fn := invoke_scmi_smc_fn w; chans := chans w;
     smcs := smcs w; iomem := m; trace := trace w |}.
Definition set_trace (t : list event) (w : world) : world :=
  {| invoke_scmi_smc_fn := invoke_scmi_smc_fn w; chans := chans w;
     smcs := smcs w; iomem := iomem w; trace := t |}.

(** Everything the driver gets from its environment: the data model it is
    compiled for and, on 32-bit ARM, whether physical addresses are 64 bits
    wide (LPAE), the device tree, whether an allocation or a mapping
    succeeds, the initial contents of a freshly mapped area, and what the
    firmware does on a secure-monitor or hypervisor call (the result registers
    and the new contents of every mapped area). *)
Record platform := {
  abi : data_model;
  lpae : bool;
  of_tree : device_tree;
  kzalloc_ok : world → bool;
  ioremap_ok : Z → Z → world → bool;
  phys_mem : Z → scmi_shared_mem;
  smc_insn : list Z → world → arm_smccc_res * (Z → scmi_shared_mem);
  hvc_insn : list Z → world → arm_smccc_res * (Z → scmi_shared_mem);
}.

(** The width of [phys_addr_t] and [resource_size_t]: 64 bits on arm64 and
    on 32-bit ARM with LPAE, 32 bits otherwise. *)
Definition phys_addr_bits (pf : platform) : Z :=
  match abi pf with
  | LP64 => 64
  | ILP32 => if lpae pf then 64 else 32
  end.

(** ** The monad of driver code: state, and [None] for a fault. *)

Definition M (A : Type) : Type := world → option (A * world).

#[global] Instance M_ret : MRet M := λ A a w, Some (a, w).
#[global] Instance M_bind : MBind M := λ A B f m w,
  match m w with
  | Some (a, w') => f a w'
  | None => None
  end.

Definition fault {A} : M A := λ _, None.
Definition gets {A} (f : world → A) : M A := λ w, Some (f w, w).
Definition modify (f : world → world) : M unit := λ w, Some (tt, f w).
Definition emit (e : event) : M unit :=
  modify (λ w, set_trace (trace w ++ [e]) w).

(** [*p] for a pointer [p] into the finite map selected by [heap]. *)
Definition deref `{Countable K} {A} (heap : world → gmap K A) (p : option K)
  : M A :=
  match p with
  | None => fault
  | Some a => o ← gets (λ w, heap w !! a);
              match o with Some v => mret v | None => fault end
  end.

Definition load_chan (p : option ptr) : M scmi_chan_info := deref chans p.
Definition load_smc (p : option ptr) : M scmi_smc := deref smcs p.

(** [p->field = v], written as an update [f] of the whole object. *)
Definition store_chan (p : option ptr) (f : scmi_chan_info → scmi_chan_info)
  : M unit :=
  c ← load_chan p;
  match p with
  | Some a => modify (λ w, set_chans (<[a := f c]> (chans w)) w)
  | None => fault
  end.

Definition store_smc (p : option ptr) (f : scmi_smc → scmi_smc) : M unit :=
  s ← load_smc p;
  match p with
  | Some a => modify (λ w, set_smcs (<[a := f s]> (smcs w)) w)
  | None => fault
  end.

Definition with_transport_info (v : option ptr) (c : scmi_chan_info) :=
  {| chan_dev := chan_dev c; transport_info := v |}.
Definition with_cinfo (v : option ptr) (s : scmi_smc) :=
  {| smc_cinfo := v; smc_shmem := smc_shmem s;
     smc_func_id := smc_func_id s; smc_prot_id := smc_prot_id s |}.
Definition with_shmem (v : option Z) (s : scmi_smc) :=
  {| smc_cinfo := smc_cinfo s; smc_shmem := v;
     smc_func_id := smc_func_id s; smc_prot_id := smc_prot_id s |}.
Definition with_func_id (v : Z) (s : scmi_smc) :=
  {| smc_cinfo := smc_cinfo s; smc_shmem := smc_shmem s;
     smc_func_id := to_u32 v; smc_prot_id := smc_prot_id s |}.
Definition with_prot_id (v : Z) (s : scmi_smc) :=
  {| smc_cinfo := smc_cinfo s; smc_shmem := smc_shmem s;
     smc_func_id := smc_func_id s; smc_prot_id := to_int v |}.

(** ** The driver *)

Section Driver.

Context (pf : platform).

(** *** Kernel services used by the driver *)

Definition scmi_smc_zero : scmi_smc :=
  {| smc_cinfo := None; smc_shmem := None; smc_func_id := 0;
     smc_prot_id := 0 |}.

(** A device-managed, zeroed struct scmi_smc at an address not in use, or
    NULL. *)
Definition devm_kzalloc (d : device) : M (option ptr) :=
  ok ← gets (kzalloc_ok pf);
  if ok : bool then
    p ← gets (λ w, fresh (dom (smcs w)));
    modify (λ w, set_smcs (<[p := scmi_smc_zero]> (smcs w)) w);;
    emit (EvKzalloc d (Some p));;
    mret (Some p)
  else
    emit (EvKzalloc d None);;
    mret None.

Definition of_parse_phandle (np : option node) (name : string) (index : nat)
  : M (option node) :=
  emit (EvOfParsePhandle np name index);;
  mret (dt_parse_phandle (of_tree pf) np name index).

Definition of_address_to_resource (np : option node) (index : nat)
  : M (Z + resource) :=
  emit (EvOfAddressToResource np index);;
  mret (dt_address_to_resource (of_tree pf) np index).

Definition of_node_put (np : option node) : M unit := emit (EvOfNodePut np).

Definition of_property_read_u32 (np : option node) (name : string)
  : M (Z + Z) :=
  emit (EvOfReadU32 np name);;
  mret (dt_read_u32 (of_tree pf) np name).

Definition of_property_read_string (np : option node) (name : string)
  : M (Z + string) :=
  emit (EvOfReadString np name);;
  mret (dt_read_string (of_tree pf) np name).

Definition of_find_node_by_path (path : string) : M (option node) :=
  emit (EvOfFindNodeByPath path);;
  mret (dt_paths (of_tree pf) !! path).

(** A newly mapped area holds what the platform has at [start]; an area that
    is already mapped keeps its contents. *)
Definition map_area (start : Z) (w : world) : world :=
  set_iomem
    (<[start := default (phys_mem pf start) (iomem w !! start)]> (iomem w)) w.

(** A device-managed mapping of the area at [start], or NULL. *)
Definition devm_ioremap (d : device) (start size : Z) : M (option Z) :=
  ok ← gets (ioremap_ok pf start size);
  if ok : bool then
    modify (map_area start);;
    emit (EvIoremap d start size (Some start));;
    mret (Some start)
  else
    emit (EvIoremap d start size None);;
    mret None.

(** Messages are logged without their final newline, and with apostrophes
    for the quotation marks of the source text. *)
Definition dev_err (d : device) (msg : string) : M unit :=
  emit (EvDevErr d msg).
Definition pr_warn (msg arg : string) : M unit := emit (EvPrWarn msg arg).

(** *** The shared-memory primitives, through a pointer *)

Definition load_shmem (p : option Z) : M scmi_shared_mem := deref iomem p.

Definition shmem_tx_prepare (shmem : option Z) (xfer : scmi_xfer) : M unit :=
  r ← load_shmem shmem;
  match shmem with
  | Some a =>
      modify (λ w, set_iomem (<[a := region_tx_prepare r xfer]> (iomem w)) w);;
      emit (EvShmemTxPrepare a)
  | None => fault
  end.

Definition shmem_read_header (shmem : option Z) : M Z :=
  r ← load_shmem shmem;
  match shmem with
  | Some a => emit (EvShmemReadHeader a);; mret (region_read_header r)
  | None => fault
  end.

Definition shmem_fetch_response (shmem : option Z) (xfer : scmi_xfer)
  : M scmi_xfer :=
  r ← load_shmem shmem;
  match shmem with
  | Some a =>
      emit (EvShmemFetchResponse a);; mret (region_fetch_response r xfer)
  | None => fault
  end.

Definition shmem_poll_done (shmem : option Z) (xfer : scmi_xfer) : M bool :=
  r ← load_shmem shmem;
  match shmem with
  | Some a => emit (EvShmemPollDone a);; mret (region_poll_done r xfer)
  | None => fault
  end.

(** *** Callbacks of the protocol layer *)

Definition scmi_rx_callback (cinfo : option ptr) (msg_hdr : Z) : M unit :=
  emit (EvRxCallback cinfo msg_hdr).

Definition scmi_free_channel (cinfo : option ptr) (data : option ptr) (id : Z)
  : M Z :=
  emit (EvFreeChannel cinfo data id);;
  mret 0.

(** *** The call instructions

    The firmware runs between the issue of the instruction and its return:
    it sees the world as it is at the call and leaves result registers and
    new contents in the mapped areas. *)

Definition firmware_writes (contents : Z → scmi_shared_mem) : M unit :=
  modify (λ w, set_iomem (map_imap (λ k _, Some (contents k)) (iomem w)) w).

Definition arm_smccc_smc (function_id arg0 arg1 arg2 arg3 arg4 arg5 arg6 : Z)
  : M arm_smccc_res :=
  let args := [function_id; arg0; arg1; arg2; arg3; arg4; arg5; arg6] in
  emit (EvSmcccSmc args);;
  out ← gets (smc_insn pf args);
  firmware_writes out.2;;
  mret out.1.

Definition arm_smccc_hvc (function_id arg0 arg1 arg2 arg3 arg4 arg5 arg6 : Z)
  : M arm_smccc_res :=
  let args := [function_id; arg0; arg1; arg2; arg3; arg4; arg5; arg6] in
  emit (EvSmcccHvc args);;
  out ← gets (hvc_insn pf args);
  firmware_writes out.2;;
  mret out.1.

(** *** smc.c *)

Definition smc_chan_available (dev : device) (idx : Z) : bool := true.

Definition __invoke_scmi_fn_hvc
    (function_id arg0 arg1 arg2 arg3 arg4 arg5 arg6 : Z) : M Z :=
  res ← arm_smccc_hvc function_id arg0 arg1 arg2 arg3 arg4 arg5 arg6;
  mret (a0 res).

Definition __invoke_scmi_fn_smc
    (function_id arg0 arg1 arg2 arg3 arg4 arg5 arg6 : Z) : M Z :=
  res ← arm_smccc_smc function_id arg0 arg1 arg2 arg3 arg4 arg5 arg6;
  mret (a0 res).

(** A call through a function pointer; calling through NULL is a fault. *)
Definition call_scmi_smc_fn (fn : option scmi_smc_fn)
    (function_id arg0 arg1 arg2 arg3 arg4 arg5 arg6 : Z) : M Z :=
  match fn with
  | Some fn_hvc =>
      __invoke_scmi_fn_hvc function_id arg0 arg1 arg2 arg3 arg4 arg5 arg6
  | Some fn_smc =>
      __invoke_scmi_fn_smc function_id arg0 arg1 arg2 arg3 arg4 arg5 arg6
  | None => fault
  end.

Definition scmi_smc_conduit_method (np : option node) : M Z :=
  fn ← gets invoke_scmi_smc_fn;
  if fn is Some _ then mret 0 else
  r ← of_property_read_string np "method";
  match r with
  | inl err => if decide (err = 0) then fault else mret (- ENXIO)
  | inr method =>
      if decide (strcmp "hvc" method = 0) then
        modify (set_invoke (Some fn_hvc));;
        mret 0
      else if decide (strcmp "smc" method = 0) then
        modify (set_invoke (Some fn_smc));;
        mret 0
      else
        pr_warn "invalid 'method' property: %s" method;;
        mret (- EINVAL)
  end.

Definition smc_chan_setup (cinfo : option ptr) (dev : device) (prot_id : Z)
    (tx : bool) : M Z :=
  ci ← load_chan cinfo;
  let cdev := chan_dev ci in
  if negb tx then mret (- ENODEV) else
  scmi_info ← devm_kzalloc dev;
  if scmi_info is None then mret (- ENOMEM) else
  np ← of_parse_phandle (of_node cdev) "shmem" 0;
  np ← (if np is None then of_parse_phandle (of_node dev) "shmem" 0
        else mret np);
  r ← of_address_to_resource np 0;
  of_node_put np;;
  match r with
  | inl ret =>
      if decide (ret = 0) then fault else
      dev_err cdev "failed to get SCMI Tx shared memory";;
      mret ret
  | inr res =>
      let size := resource_size (phys_addr_bits pf) res in
      m ← devm_ioremap dev (res_start res) size;
      store_smc scmi_info (with_shmem m);;
      if m is None then
        dev_err dev "failed to ioremap SCMI Tx shared memory";;
        mret (- EADDRNOTAVAIL)
      else
      r ← of_property_read_u32 (of_node dev) "smc-id";
      match r with
      | inl ret => if ret <? 0 then mret ret else fault
      | inr func_id =>
          np ← of_find_node_by_path "/psci";
          if np is None then
            dev_err dev "Not able to find /psci node";;
            mret (- ENODEV)
          else
          ret ← scmi_smc_conduit_method np;
          if decide (ret = 0) then
            of_node_put np;;
            store_smc scmi_info (with_func_id func_id);;
            store_smc scmi_info (with_cinfo cinfo);;
            store_smc scmi_info (with_prot_id prot_id);;
            store_chan cinfo (with_transport_info scmi_info);;
            mret 0
          else mret ret
      end
  end.

Definition smc_chan_free (id : Z) (p : option ptr) (data : option ptr)
  : M Z :=
  let cinfo := p in
  ci ← load_chan cinfo;
  let scmi_info := transport_info ci in
  store_chan cinfo (with_transport_info None);;
  store_smc scmi_info (with_cinfo None);;
  scmi_free_channel cinfo data id;;
  mret 0.

Definition smc_send_message (cinfo : option ptr) (xfer : scmi_xfer) : M Z :=
  ci ← load_chan cinfo;
  let scmi_info := transport_info ci in
  si ← load_smc scmi_info;
  shmem_tx_prepare (smc_shmem si) xfer;;
  si ← load_smc scmi_info;
  fn ← gets invoke_scmi_smc_fn;
  r ← call_scmi_smc_fn fn
        (to_ulong (abi pf) (smc_func_id si))
        (to_ulong (abi pf) (smc_prot_id si)) 0 0 0 0 0 0;
  let ret := to_int r in
  let ret := if 0 <? ret then 0 else ret in
  si ← load_smc scmi_info;
  hdr ← shmem_read_header (smc_shmem si);
  scmi_rx_callback (smc_cinfo si) hdr;;
  mret ret.

Definition smc_mark_txdone (cinfo : option ptr) (ret : Z) : M unit :=
  mret tt.

(** The transfer is passed by reference in C; the updated transfer is the
    result here. *)
Definition smc_fetch_response (cinfo : option ptr) (xfer : scmi_xfer)
  : M scmi_xfer :=
  ci ← load_chan cinfo;
  let scmi_info := transport_info ci in
  si ← load_smc scmi_info;
  shmem_fetch_response (smc_shmem si) xfer.

Definition smc_poll_done (cinfo : option ptr) (xfer : scmi_xfer) : M bool :=
  ci ← load_chan cinfo;
  let scmi_info := transport_info ci in
  si ← load_smc scmi_info;
  shmem_poll_done (smc_shmem si) xfer.

End Driver.

(** ** Derived notions used in the statements *)

(** What the conduit returns is an [unsigned long]; [smc_send_message] keeps
    it in an [int] and clamps positive values. *)
Definition send_status (r : Z) : Z :=
  let ret := to_int r in if 0 <? ret then 0 else ret.

(** The instruction behind a conduit, and the event it leaves in the log. *)
Definition conduit_insn (pf : platform) (fn : scmi_smc_fn)
  : list Z → world → arm_smccc_res * (Z → scmi_shared_mem) :=
  match fn with fn_hvc => hvc_insn pf | fn_smc => smc_insn pf end.

Definition conduit_event (fn : scmi_smc_fn) (args : list Z) : event :=
  match fn with fn_hvc => EvSmcccHvc args | fn_smc => EvSmcccSmc args end.

(** The arguments [smc_send_message] passes for the channel object [si]. *)
Definition send_args (pf : platform) (si : scmi_smc) : list Z :=
  [to_ulong (abi pf) (smc_func_id si); to_ulong (abi pf) (smc_prot_id si);
   0; 0; 0; 0; 0; 0].

(** The world at the moment the firmware runs: the message is in the shared
    area [a] (which held [r]) and the call is logged. *)
Definition world_at_call (pf : platform) (fn : scmi_smc_fn) (si : scmi_smc)
    (a : Z) (r : scmi_shared_mem) (xfer : scmi_xfer) (w : world) : world :=
  let w1 :=
    set_trace (trace w ++ [EvShmemTxPrepare a])
      (set_iomem (<[a := region_tx_prepare r xfer]> (iomem w)) w) in
  set_trace (trace w1 ++ [conduit_event fn (send_args pf si)]) w1.

(** What the firmware answers to that call. *)
Definition firmware_reply (pf : platform) (fn : scmi_smc_fn) (si : scmi_smc)
    (a : Z) (r : scmi_shared_mem) (xfer : scmi_xfer) (w : world)
  : arm_smccc_res * (Z → scmi_shared_mem) :=
  conduit_insn pf fn (send_args pf si) (world_at_call pf fn si a r xfer w).

(** The world [smc_send_message] leaves: the firmware has written the mapped
    areas, the header was read back and handed to the protocol layer. *)
Definition world_after_send (pf : platform) (fn : scmi_smc_fn) (si : scmi_smc)
    (a : Z) (r : scmi_shared_mem) (xfer : scmi_xfer) (w : world) : world :=
  let wc := world_at_call pf fn si a r xfer w in
  let reply := firmware_reply pf fn si a r xfer w in
  let w2 := set_iomem (map_imap (λ k _, Some (reply.2 k)) (iomem wc)) wc in
  let w3 := set_trace (trace w2 ++ [EvShmemReadHeader a]) w2 in
  set_trace
    (trace w3 ++ [EvRxCallback (smc_cinfo si) (region_read_header (reply.2 a))])
    w3.

(** The node and the property name of an event that reads a property of the
    device tree. *)
Definition property_access (e : event) : option (option node * string) :=
  match e with
  | EvOfParsePhandle np name _ | EvOfReadU32 np name | EvOfReadString np name =>
      Some (np, name)
  | _ => None
  end.

(** The events of the log that access a property named "smc-id". *)
Definition is_smc_id_access (e : event) : bool :=
  match property_access e with
  | Some (_, name) => bool_decide (name = "smc-id")
  | None => false
  end.

(** The events of the log that are deliveries to [scmi_rx_callback]. *)
Definition is_rx_callback (e : event) : bool :=
  match e with EvRxCallback _ _ => true | _ => false end.

(** The events of the log that are calls of a conduit instruction. *)
Definition is_conduit_call (e : event) : bool :=
  match e with EvSmcccSmc _ | EvSmcccHvc _ => true | _ => false end.


(** A channel that is set up: the protocol layer's descriptor [c] points to
    the transport object [si] at [p], which points back to [c] and to the
    mapped area [a]; its fields hold values of their C types; the conduit is
    chosen. *)
Record chan_ready (w : world) (c p : ptr) (si : scmi_smc) (a : Z) : Prop := {
  ready_chan :
    ∃ ci, chans w !! c = Some ci ∧ transport_info ci = Some p;
  ready_smc : smcs w !! p = Some si;
  ready_back : smc_cinfo si = Some c;
  ready_shmem : smc_shmem si = Some a;
  ready_mapped : is_Some (iomem w !! a);
  ready_conduit : is_Some (invoke_scmi_smc_fn w);
  ready_func_id : is_u32 (smc_func_id si);
  ready_prot_id : is_int (smc_prot_id si);
}.

(** What a successful [smc_chan_setup] from [w] leaves in [w']: a fresh
    transport object [si] at [p], installed on the descriptor at [c], holding
    the four attributes, with its area mapped and the conduit chosen. *)
Record setup_done (pf : platform) (w w' : world) (c : ptr)
    (ci : scmi_chan_info) (dev : device) (prot_id : Z)
    (p : ptr) (si : scmi_smc) (a : Z) : Prop := {
  done_fresh : smcs w !! p = None;
  done_chans : chans w' = <[c := with_transport_info (Some p) ci]> (chans w);
  done_smcs : smcs w' = <[p := si]> (smcs w);
  done_cinfo : smc_cinfo si = Some c;
  done_shmem : smc_shmem si = Some a;
  done_func_id :
    inr (smc_func_id si) = dt_read_u32 (of_tree pf) (of_node dev) "smc-id";
  done_prot_id : smc_prot_id si = to_int prot_id;
  done_mapped : is_Some (iomem w' !! a);
  done_conduit : is_Some (invoke_scmi_smc_fn w');
}.

(** The four operations the protocol layer may run on a set-up channel
    between setup and teardown. *)
Inductive transport_op :=
| OpSendMessage (xfer : scmi_xfer)
| OpMarkTxdone (ret : Z)
| OpFetchResponse (xfer : scmi_xfer)
| OpPollDone (xfer : scmi_xfer).

Definition run_op (pf : platform) (cinfo : option ptr) (op : transport_op)
  : M unit :=
  match op with
  | OpSendMessage xfer => smc_send_message pf cinfo xfer;; mret tt
  | OpMarkTxdone ret => smc_mark_txdone cinfo ret
  | OpFetchResponse xfer => smc_fetch_response cinfo xfer;; mret tt
  | OpPollDone xfer => smc_poll_done cinfo xfer;; mret tt
  end.

Fixpoint run_ops (pf : platform) (cinfo : option ptr) (ops : list transport_op)
  : M unit :=
  match ops with
  | [] => mret tt
  | op :: rest => run_op pf cinfo op;; run_ops pf cinfo rest
  end.

(** The platform of which all the call's result registers but the first are
    cleared. *)
Definition first_register_only (res : arm_smccc_res) : arm_smccc_res :=
  {| a0 := a0 res; a1 := 0; a2 := 0; a3 := 0 |}.

Definition mask_results (pf : platform) : platform :=
  {| abi := abi pf; lpae := lpae pf; of_tree := of_tree pf;
     kzalloc_ok := kzalloc_ok pf;
     ioremap_ok := ioremap_ok pf; phys_mem := phys_mem pf;
     smc_insn := λ args w,
       (first_register_only (smc_insn pf args w).1, (smc_insn pf args w).2);
     hvc_insn := λ args w,
       (first_register_only (hvc_insn pf args w).1, (hvc_insn pf args w).2) |}.

(** ** A concrete platform

    An i.MX8-like configuration: the transport node carries smc-id
    0xC20000FE, the upper channel's node has an smc-id of its own, both refer
    to the same 4 KiB shared area at 0x93f000, /psci selects the
    secure-monitor call, and the firmware answers every call with status
    [status] and a four-byte response.  Two more nodes carry the methods "hvc"
    and "trap". *)

Module Scenario.

Definition transport_node : node := 1%nat.
Definition channel_node : node := 2%nat.
Definition shmem_node : node := 3%nat.
Definition psci_node : node := 4%nat.
Definition hvc_node : node := 5%nat.
Definition trap_node : node := 6%nat.

Definition tree : device_tree :=
  {| dt_nodes :=
       {[ transport_node :=
            {[ "shmem" := PropPhandle [shmem_node];
               "smc-id" := PropU32 0xC20000FE ]};
          channel_node :=
            {[ "shmem" := PropPhandle [shmem_node];
               "smc-id" := PropU32 0x82000010 ]};
          shmem_node := ∅;
          psci_node := {[ "method" := PropString "smc" ]};
          hvc_node := {[ "method" := PropString "hvc" ]};
          trap_node := {[ "method" := PropString "trap" ]} ]};
     dt_paths := {[ "/psci" := psci_node ]};
     dt_reg :=
       {[ shmem_node := [{| res_start := 0x93f000; res_end := 0x93ffff |}] ]}
  |}.

Definition idle_area : scmi_shared_mem :=
  {| shm_reserved := 0; shm_channel_status := 1; shm_flags := 0;
     shm_length := 0; shm_msg_header := 0; shm_msg_payload := [] |}.

Definition firmware (status : Z) (args : list Z) (w : world)
  : arm_smccc_res * (Z → scmi_shared_mem) :=
  ({| a0 := status; a1 := 0; a2 := 0; a3 := 0 |},
   λ k, match iomem w !! k with
        | Some area =>
            {| shm_reserved := 0; shm_channel_status := 1; shm_flags := 0;
               shm_length := 8; shm_msg_header := shm_msg_header area;
               shm_msg_payload := [0; 0; 0; 0] |}
        | None => idle_area
        end).

Definition board (dm : data_model) (status : Z) : platform :=
  {| abi := dm; lpae := false; of_tree := tree;
     kzalloc_ok := λ _, true; ioremap_ok := λ _ _ _, true;
     phys_mem := λ _, idle_area;
     smc_insn := firmware status; hvc_insn := firmware status |}.

Definition scmi_dev : device :=
  {| dev_name := "firmware:scmi"; of_node := Some transport_node |}.
Definition chan_device : device :=
  {| dev_name := "scmi_dev.1"; of_node := Some channel_node |}.

Definition cinfo : ptr := 7%nat.

Definition boot : world :=
  {| invoke_scmi_smc_fn := None;
     chans := {[ cinfo := {| chan_dev := chan_device;
                             transport_info := None |} ]};
     smcs := ∅; iomem := ∅; trace := [] |}.

Definition xfer : scmi_xfer :=
  {| xfer_hdr := 0x00010014; xfer_tx := [1; 2]; xfer_rx_size := 16;
     xfer_rx := []; xfer_rx_len := 0 |}.

Definition smc_object : scmi_smc :=
  {| smc_cinfo := Some cinfo; smc_shmem := Some 0x93f000;
     smc_func_id := 0xC20000FE; smc_prot_id := 0x14 |}.

(** A world in which the channel is set up: the state [smc_chan_setup]
    leaves from [boot] for protocol 0x14, with an empty log. *)
Definition ready : world :=
  {| invoke_scmi_smc_fn := Some fn_smc;
     chans := {[ cinfo := {| chan_dev := chan_device;
                             transport_info := Some 0%nat |} ]};
     smcs := {[ 0%nat := smc_object ]};
     iomem := {[ 0x93f000 := idle_area ]};
     trace := [] |}.

End Scenario.

(** ** More notions for the statements *)

(** The node whose range [smc_chan_setup] translates: the shmem reference of
    the upper channel's node and, when there is none, that of the transport
    device's node (NULL when there is none either). *)
Definition shmem_node_of (pf : platform) (cdev dev : device) : option node :=
  match dt_parse_phandle (of_tree pf) (of_node cdev) "shmem" 0 with
  | Some n => Some n
  | None => dt_parse_phandle (of_tree pf) (of_node dev) "shmem" 0
  end.

(** The events of the log that look for the shared-memory node or translate
    it. *)
Definition is_shmem_lookup (e : event) : bool :=
  match e with
  | EvOfParsePhandle _ _ _ | EvOfAddressToResource _ _ => true
  | _ => false
  end.

(** The events of the log that release a node. *)
Definition is_node_put (e : event) : bool :=
  match e with EvOfNodePut _ => true | _ => false end.

(** The events of the log that belong to the resolution of the method string:
    the read of a string property and the warning about its value. *)
Definition is_method_read (e : event) : bool :=
  match e with EvOfReadString _ _ | EvPrWarn _ _ => true | _ => false end.

(** A platform with another device tree, and a device tree with other
    paths. *)
Definition with_tree (t : device_tree) (pf : platform) : platform :=
  {| abi := abi pf; lpae := lpae pf; of_tree := t;
     kzalloc_ok := kzalloc_ok pf;
     ioremap_ok := ioremap_ok pf; phys_mem := phys_mem pf;
     smc_insn := smc_insn pf; hvc_insn := hvc_insn pf |}.

Definition with_paths (paths : gmap string node) (t : device_tree)
  : device_tree :=
  {| dt_nodes := dt_nodes t; dt_paths := paths; dt_reg := dt_reg t |}.

(** ** Variants of the concrete platform

    The same board with /psci naming the method "trap", with no /psci node at
    all, and without memory to allocate; the initial world with the
    hypervisor call already chosen; and the set-up world with the descriptor
    of a second channel. *)

Module Variants.

Definition board_trap : platform :=
  with_tree (with_paths {[ "/psci" := Scenario.trap_node ]} Scenario.tree)
    (Scenario.board LP64 0).

Definition board_without_psci : platform :=
  with_tree (with_paths ∅ Scenario.tree) (Scenario.board LP64 0).

Definition boot_hvc : world := set_invoke (Some fn_hvc) Scenario.boot.

Definition other : ptr := 8%nat.

Definition two_channels : world :=
  set_chans
    (<[other := {| chan_dev := Scenario.chan_device;
                   transport_info := None |}]> (chans Scenario.ready))
    Scenario.ready.

End Variants.

(** * Properties *)

(** ** Integer conversions *)

Lemma to_int_range z : is_int (to_int z).
Proof.
  unfold is_int, to_int, wrap_signed.
  pose proof (Z.mod_pos_bound z (2 ^ 32) ltac:(lia)).
  change (32 - 1) with 31.
  destruct (Z.ltb_spec (z mod 2 ^ 32) (2 ^ 31)); lia.
Qed.

Lemma to_int_id z : is_int z → to_int z = z.
Proof.
  unfold is_int, to_int, wrap_signed. intros Hz.
  change (32 - 1) with 31.
  destruct (Z.le_gt_cases 0 z).
  - rewrite Z.mod_small by lia.
    destruct (Z.ltb_spec z (2 ^ 31)); lia.
  - replace (z mod 2 ^ 32) with (z + 2 ^ 32).
    + destruct (Z.ltb_spec (z + 2 ^ 32) (2 ^ 31)); lia.
    + apply Z.mod_unique with (q := -1); lia.
Qed.

Lemma to_u32_id z : is_u32 z → to_u32 z = z.
Proof. unfold is_u32, to_u32, wrap_unsigned. intros. apply Z.mod_small. lia. Qed.

Lemma to_u32_range z : is_u32 (to_u32 z).
Proof. unfold is_u32, to_u32, wrap_unsigned. apply Z.mod_pos_bound. lia. Qed.

(** A [u32] is zero-extended to an [unsigned long]. *)
Lemma to_ulong_u32 dm z : is_u32 z → to_ulong dm z = z.
Proof.
  unfold is_u32, to_ulong, wrap_unsigned. intros.
  apply Z.mod_small. destruct dm; simpl; lia.
Qed.

(** An [int] converted to [unsigned long] and back is the same [int]. *)
Lemma to_int_to_ulong dm z : to_int (to_ulong dm z) = to_int z.
Proof.
  unfold to_int, to_ulong, wrap_signed, wrap_unsigned.
  replace ((z mod 2 ^ BITS_PER_LONG dm) mod 2 ^ 32) with (z mod 2 ^ 32);
    [done|].
  destruct dm; simpl BITS_PER_LONG.
  - by rewrite Z.mod_mod.
  - change (2 ^ 64) with (2 ^ 32 * 2 ^ 32).
    rewrite Z.rem_mul_r by lia.
    rewrite Z.mul_comm, Z.mod_add by lia.
    by rewrite Z.mod_mod.
Qed.

Lemma to_int_shift z k : to_int (z + k * 2 ^ 32) = to_int z.
Proof. unfold to_int, wrap_signed. by rewrite Z.mod_add. Qed.

(** A value that fits an [int] when read as a [long] converts to it. *)
Lemma to_int_of_long dm z : is_int (to_long dm z) → to_int z = to_long dm z.
Proof.
  intros Hfit. rewrite <- (to_int_id (to_long dm z)) by done.
  rewrite <- (to_int_to_ulong dm z).
  unfold to_long, to_ulong, wrap_unsigned, wrap_signed.
  set (m := z mod 2 ^ BITS_PER_LONG dm).
  destruct (m <? 2 ^ (BITS_PER_LONG dm - 1)); [done|].
  destruct dm; simpl BITS_PER_LONG.
  - replace (m - 2 ^ 32) with (m + (-1) * 2 ^ 32) by lia.
    by rewrite to_int_shift.
  - replace (m - 2 ^ 64) with (m + (- 2 ^ 32) * 2 ^ 32) by lia.
    by rewrite to_int_shift.
Qed.

Lemma send_status_nonpos r : send_status r <= 0.
Proof.
  unfold send_status. destruct (Z.ltb_spec 0 (to_int r)); lia.
Qed.

(** ** String comparison *)




(** ** Running driver code *)

#[local] Arguments strcmp : simpl never.
#[local] Arguments resource_size : simpl never.
#[local] Arguments phys_addr_bits : simpl never.

Ltac munfold :=
  unfold store_chan, store_smc, load_chan, load_smc, load_shmem, deref,
    scmi_rx_callback, scmi_free_channel, firmware_writes, dev_err, pr_warn,
    of_parse_phandle, of_address_to_resource, of_node_put,
    of_property_read_u32, of_property_read_string, of_find_node_by_path,
    gets, modify, emit, fault, mbind, M_bind, mret, M_ret in *.

Lemma trace_world_after_send pf fn si a r xfer w :
  trace (world_after_send pf fn si a r xfer w) =
  trace w ++
    [EvShmemTxPrepare a; conduit_event fn (send_args pf si);
     EvShmemReadHeader a;
     EvRxCallback (smc_cinfo si)
       (region_read_header ((firmware_reply pf fn si a r xfer w).2 a))].
Proof. simpl. by rewrite <- !app_assoc. Qed.

Lemma iomem_world_after_send pf fn si a r xfer w k :
  iomem (world_after_send pf fn si a r xfer w) !! k =
  if decide (a = k) then Some ((firmware_reply pf fn si a r xfer w).2 k)
  else (λ _, (firmware_reply pf fn si a r xfer w).2 k) <$> iomem w !! k.
Proof.
  simpl. rewrite map_lookup_imap, lookup_insert.
  case_decide; [done|]. by destruct (iomem w !! k).
Qed.

(** The whole effect of a send on a channel whose pointers are valid. *)
Lemma smc_send_message_run pf w c ci p si a r fn xfer :
  chans w !! c = Some ci →
  transport_info ci = Some p →
  smcs w !! p = Some si →
  smc_shmem si = Some a →
  iomem w !! a = Some r →
  invoke_scmi_smc_fn w = Some fn →
  smc_send_message pf (Some c) xfer w =
  Some (send_status (a0 (firmware_reply pf fn si a r xfer w).1),
        world_after_send pf fn si a r xfer w).
Proof.
  intros Hc Ht Hs Ha Hr Hf.
  unfold smc_send_message, shmem_tx_prepare, shmem_read_header,
    call_scmi_smc_fn, __invoke_scmi_fn_smc, __invoke_scmi_fn_hvc,
    arm_smccc_smc, arm_smccc_hvc.
  munfold. cbn. rewrite Hc. cbn. rewrite Ht, Hs. cbn.
  rewrite Ha, Hr. cbn. rewrite Hs. cbn. rewrite Hf.
  destruct fn; cbn; rewrite Hs; cbn; rewrite Ha; cbn;
    rewrite map_lookup_imap, lookup_insert_eq; reflexivity.
Qed.

Lemma smc_fetch_response_run w c ci p si a r xfer :
  chans w !! c = Some ci →
  transport_info ci = Some p →
  smcs w !! p = Some si →
  smc_shmem si = Some a →
  iomem w !! a = Some r →
  smc_fetch_response (Some c) xfer w =
  Some (region_fetch_response r xfer,
        set_trace (trace w ++ [EvShmemFetchResponse a]) w).
Proof.
  intros Hc Ht Hs Ha Hr.
  unfold smc_fetch_response, shmem_fetch_response. munfold. cbn.
  rewrite Hc. cbn. rewrite Ht, Hs. cbn. rewrite Ha, Hr. reflexivity.
Qed.

Lemma smc_poll_done_run w c ci p si a r xfer :
  chans w !! c = Some ci →
  transport_info ci = Some p →
  smcs w !! p = Some si →
  smc_shmem si = Some a →
  iomem w !! a = Some r →
  smc_poll_done (Some c) xfer w =
  Some (region_poll_done r xfer,
        set_trace (trace w ++ [EvShmemPollDone a]) w).
Proof.
  intros Hc Ht Hs Ha Hr.
  unfold smc_poll_done, shmem_poll_done. munfold. cbn.
  rewrite Hc. cbn. rewrite Ht, Hs. cbn. rewrite Ha, Hr. reflexivity.
Qed.

Lemma smc_chan_free_run w c ci p si id data :
  chans w !! c = Some ci →
  transport_info ci = Some p →
  smcs w !! p = Some si →
  smc_chan_free id (Some c) data w =
  Some (0,
        set_trace (trace w ++ [EvFreeChannel (Some c) data id])
          (set_smcs (<[p := with_cinfo None si]> (smcs w))
             (set_chans (<[c := with_transport_info None ci]> (chans w)) w))).
Proof.
  intros Hc Ht Hs.
  unfold smc_chan_free. munfold.
  repeat first [progress cbn | rewrite Hc | rewrite Ht | rewrite Hs].
  reflexivity.
Qed.

(** ** Channel setup, path by path *)

Lemma dt_address_to_resource_error dt np index e :
  dt_address_to_resource dt np index = inl e → e < 0.
Proof. unfold dt_address_to_resource. case_match; intros [= <-]; done. Qed.

Lemma dt_read_u32_error dt np name e : dt_read_u32 dt np name = inl e → e < 0.
Proof. unfold dt_read_u32. repeat case_match; intros [= <-]; done. Qed.

Lemma dt_read_u32_range dt np name v :
  dt_read_u32 dt np name = inr v → is_u32 v.
Proof.
  unfold dt_read_u32. repeat case_match; intros [= <-]. apply to_u32_range.
Qed.

Lemma dt_read_string_error dt np name e :
  dt_read_string dt np name = inl e → e < 0.
Proof. unfold dt_read_string. repeat case_match; intros [= <-]; done. Qed.


Lemma fresh_smc (w : world) : smcs w !! fresh (dom (smcs w)) = None.
Proof. apply not_elem_of_dom, is_fresh. Qed.

Ltac setup_unfold :=
  unfold smc_chan_setup, scmi_smc_conduit_method, devm_kzalloc, devm_ioremap;
  munfold.

Ltac run_simpl Hc :=
  repeat first [progress cbn | rewrite lookup_insert_eq | rewrite Hc].

(** Case analysis on the innermost scrutinee the code branches on next. *)
Ltac run_case :=
  match goal with
  | |- context [match ?x with _ => _ end] =>
      lazymatch x with
      | context [match _ with _ => _ end] => fail
      | _ => destruct x eqn:?
      end
  end.

Ltac run_all Hc := run_simpl Hc; repeat (run_case; run_simpl Hc).

Ltac of_errors :=
  repeat match goal with
  | H : dt_address_to_resource _ _ _ = inl _ |- _ =>
      apply dt_address_to_resource_error in H
  | H : dt_read_u32 _ _ _ = inl _ |- _ => apply dt_read_u32_error in H
  | H : dt_read_string _ _ _ = inl _ |- _ => apply dt_read_string_error in H
  | H : (_ <? _) = true |- _ => apply Z.ltb_lt in H
  | H : (_ <? _) = false |- _ => apply Z.ltb_ge in H
  end.

(** Of the events of a given log, only the read of smc-id is an access to a
    property of that name. *)
Ltac only_smc_id_read :=
  let Hin := fresh in
  let Hacc := fresh in
  intros ? ? Hin Hacc;
  repeat (apply elem_of_cons in Hin as [Hin|Hin];
          [subst; first [discriminate Hacc | by injection Hacc as <-]|]);
  by apply elem_of_nil in Hin.

(** The sign of the error codes, keeping the equations they come from. *)
Ltac of_signs :=
  repeat match goal with
  | H : dt_address_to_resource _ _ _ = inl ?e |- _ =>
      lazymatch goal with
      | _ : e < 0 |- _ => fail
      | _ => pose proof (dt_address_to_resource_error _ _ _ _ H)
      end
  | H : dt_read_u32 _ _ _ = inl ?e |- _ =>
      lazymatch goal with
      | _ : e < 0 |- _ => fail
      | _ => pose proof (dt_read_u32_error _ _ _ _ H)
      end
  | H : dt_read_string _ _ _ = inl ?e |- _ =>
      lazymatch goal with
      | _ : e < 0 |- _ => fail
      | _ => pose proof (dt_read_string_error _ _ _ _ H)
      end
  | H : (_ <? _) = true |- _ => apply Z.ltb_lt in H
  | H : (_ <? _) = false |- _ => apply Z.ltb_ge in H
  end.

(** Every path of [smc_chan_setup], with its result, its world and its log. *)
Ltac setup_paths Hc :=
  setup_unfold; run_all Hc; of_signs; try lia;
  do 3 eexists; (split; [reflexivity|]); cbn;
  (split; [rewrite <- ?app_assoc; reflexivity|]).

(** Case analysis on the membership of an event in a given log. *)
Ltac event_in Hin tac :=
  repeat (apply elem_of_cons in Hin as [Hin|Hin];
          [first [discriminate Hin | (injection Hin; intros; subst; tac)]|]);
  by apply elem_of_nil in Hin.

Ltac ev tac :=
  intros;
  first [ done | congruence | by simplify_eq
        | match goal with Hin : _ ∈ _ |- _ => event_in Hin tac end ].

(** No event of a given log asks the node [of_node (chan_dev ci)] for a
    property named smc-id, when that node is not the transport node. *)
Ltac no_other_smc_id_access :=
  let Hin := fresh in
  let Hacc := fresh in
  intros ? Hin Hacc;
  repeat (apply elem_of_cons in Hin as [Hin|Hin];
          [subst; first [discriminate Hacc
                        | (injection Hacc; intros; congruence)]|]);
  by apply elem_of_nil in Hin.

(** A mapping that the platform always grants was not refused. *)
Ltac mapping_granted :=
  match goal with
  | H : ioremap_ok _ _ _ _ = false,
    Hm : ∀ w1, ioremap_ok _ _ _ w1 = true |- _ =>
      rewrite Hm in H; discriminate H
  end.

Lemma filter_singleton_elem {A} (f : A → bool) (l : list A) (x : A) :
  List.filter f l = [x] → x ∈ l.
Proof.
  intros Hf. apply list_elem_of_In.
  apply (proj1 (proj1 (filter_In f x l) ltac:(rewrite Hf; by left))).
Qed.

Lemma resource_size_mod bits r :
  resource_size bits r = (res_end r - res_start r + 1) mod 2 ^ bits.
Proof. reflexivity. Qed.

(** [smc_chan_setup] for the transmit direction never faults on a valid
    descriptor; it only appends to the log, its only access to a property
    named smc-id is the u32 read on the transport device's node, and it
    installs the transport object exactly when it returns 0. *)
Lemma smc_chan_setup_spec pf w c ci dev prot :
  chans w !! c = Some ci →
  ∃ ret w' evs,
    smc_chan_setup pf (Some c) dev prot true w = Some (ret, w') ∧
    trace w' = trace w ++ evs ∧
    (∀ e np, e ∈ evs → property_access e = Some (np, "smc-id") →
       e = EvOfReadU32 (of_node dev) "smc-id") ∧
    (ret = 0 → ∃ p si a, setup_done pf w w' c ci dev prot p si a) ∧
    (ret ≠ 0 → chans w' = chans w).
Proof.
  intros Hc. setup_unfold.
  run_all Hc; of_errors; try lia.
  all: do 3 eexists; split; [reflexivity|]; cbn.
  all: split; [rewrite <- ?app_assoc; reflexivity|].
  all: split; [only_smc_id_read|].
  all: split; [try (intros ?; exfalso; (lia || done)) | try done].
  all: intros _; eexists _, _, _; split; cbn;
    rewrite ?insert_insert_eq, ?lookup_insert_eq;
    first [ apply fresh_smc | reflexivity | done | idtac ].
  all: match goal with
       | H : dt_read_u32 _ _ _ = inr _ |- _ =>
           rewrite H; f_equal; apply to_u32_id, (dt_read_u32_range _ _ _ _ H)
       end.
Qed.

Lemma setup_done_ready pf w w' c ci dev prot p si a :
  setup_done pf w w' c ci dev prot p si a → chan_ready w' c p si a.
Proof.
  intros [Hfresh Hchans Hsmcs Hcinfo Hshmem Hfunc Hprot Hmap Hcond].
  split; try done.
  - exists (with_transport_info (Some p) ci).
    by rewrite Hchans, lookup_insert_eq.
  - by rewrite Hsmcs, lookup_insert_eq.
  - symmetry in Hfunc. by apply dt_read_u32_range in Hfunc.
  - rewrite Hprot. apply to_int_range.
Qed.

(** * The claims *)

(** ** Availability *)

(** C9. [smc_chan_available] is true for every device and index; it is a
    constant function of its two arguments and takes no state. *)
Theorem smc_chan_available_always (dev : device) (idx : Z) :
  smc_chan_available dev idx = true.
Proof. reflexivity. Qed.

(** ** Conduit selection *)

(** C3. Once the conduit is chosen, [scmi_smc_conduit_method] returns 0 and
    leaves the world as it is, log included, whatever node it is given and
    whatever the device tree says (first part).  Hence resolving a node whose
    method is "smc" and then a node whose method is "hvc" succeeds twice and
    leaves the pointer on the secure-monitor-call variant, the second call
    changing nothing (second part); this from any state in which the
    hypervisor call was not chosen before, the initial one included. *)
Theorem conduit_method_write_once :
  (∀ pf np w fn,
     invoke_scmi_smc_fn w = Some fn →
     scmi_smc_conduit_method pf np w = Some (0, w)) ∧
  (∀ pf1 pf2 np1 np2 w,
     invoke_scmi_smc_fn w ≠ Some fn_hvc →
     dt_read_string (of_tree pf1) np1 "method" = inr "smc" →
     dt_read_string (of_tree pf2) np2 "method" = inr "hvc" →
     ∃ w1,
       scmi_smc_conduit_method pf1 np1 w = Some (0, w1) ∧
       scmi_smc_conduit_method pf2 np2 w1 = Some (0, w1) ∧
       invoke_scmi_smc_fn w1 = Some fn_smc).
Proof.
  assert (Hchosen : ∀ pf np w fn,
     invoke_scmi_smc_fn w = Some fn →
     scmi_smc_conduit_method pf np w = Some (0, w)).
  { intros pf np w fn Hfn. unfold scmi_smc_conduit_method. munfold.
    cbn. by rewrite Hfn. }
  split; [exact Hchosen|].
  intros pf1 pf2 np1 np2 w Hnot Hsmc Hhvc.
  destruct (invoke_scmi_smc_fn w) as [[|]|] eqn:Hfn.
  - done.
  - exists w. split; [|split]; [by apply (Hchosen _ _ _ fn_smc)..|done].
  - eexists. split; [|split].
    + unfold scmi_smc_conduit_method. munfold. cbn.
      rewrite Hfn. cbn. rewrite Hsmc. cbn. reflexivity.
    + by apply (Hchosen pf2 np2 _ fn_smc).
    + reflexivity.
Qed.

Lemma conduit_method_write_once_witness :
  ∃ w1,
    scmi_smc_conduit_method (Scenario.board LP64 0)
      (Some Scenario.psci_node) Scenario.boot = Some (0, w1) ∧
    scmi_smc_conduit_method (Scenario.board LP64 0)
      (Some Scenario.hvc_node) w1 = Some (0, w1) ∧
    invoke_scmi_smc_fn w1 = Some fn_smc.
Proof.
  apply (proj2 conduit_method_write_once
           (Scenario.board LP64 0) (Scenario.board LP64 0)
           (Some Scenario.psci_node) (Some Scenario.hvc_node) Scenario.boot);
    [discriminate|reflexivity..].
Defined.



(** ** Channel setup *)

(** C4. A setup request for the receive direction returns -ENODEV and leaves
    the world exactly as it was: no object is allocated, no area is mapped,
    the shared areas and the conduit pointer are untouched, and nothing is
    logged (the log records every allocation, mapping, device-tree access and
    shared-memory access). *)
Theorem smc_chan_setup_rx_rejected pf w c ci dev prot_id :
  chans w !! c = Some ci →
  smc_chan_setup pf (Some c) dev prot_id false w = Some (- ENODEV, w).
Proof.
  intros Hc. unfold smc_chan_setup. munfold. cbn. by rewrite Hc.
Qed.

Lemma smc_chan_setup_rx_rejected_witness :
  smc_chan_setup (Scenario.board LP64 0) (Some Scenario.cinfo)
    Scenario.scmi_dev 0x14 false Scenario.boot = Some (- ENODEV, Scenario.boot).
Proof.
  apply (smc_chan_setup_rx_rejected (Scenario.board LP64 0) Scenario.boot
           Scenario.cinfo
           {| chan_dev := Scenario.chan_device; transport_info := None |}).
  reflexivity.
Defined.

(** C10. [smc_chan_setup] reads the function identifier from the property
    "smc-id" of the transport device's node [of_node dev].  Every access to
    a property of that name is the u32 read on that node; the upper
    channel's node, when it is another node, is never asked for it, wherever
    the shmem reference was found.  When the transport object is allocated,
    the shared-memory range translates and its mapping is granted, the read
    is made, exactly once; and when moreover the property holds a value, the
    /psci node exists and a conduit is already chosen, the setup returns 0.
    A setup that returns 0 has made that read exactly once and has stored
    the value of the transport node's property as the function
    identifier. *)
Theorem smc_id_read_from_transport_node pf w c ci dev prot_id :
  chans w !! c = Some ci →
  ∃ ret w' evs,
    smc_chan_setup pf (Some c) dev prot_id true w = Some (ret, w') ∧
    trace w' = trace w ++ evs ∧
    (∀ e np, e ∈ evs → property_access e = Some (np, "smc-id") →
       e = EvOfReadU32 (of_node dev) "smc-id") ∧
    (of_node (chan_dev ci) ≠ of_node dev →
       ∀ e, e ∈ evs →
         property_access e ≠ Some (of_node (chan_dev ci), "smc-id")) ∧
    (kzalloc_ok pf w = true →
     ∀ res,
       dt_address_to_resource (of_tree pf)
         (shmem_node_of pf (chan_dev ci) dev) 0 = inr res →
       (∀ w1,
          ioremap_ok pf (res_start res)
            (resource_size (phys_addr_bits pf) res) w1 = true) →
       List.filter is_smc_id_access evs =
         [EvOfReadU32 (of_node dev) "smc-id"] ∧
       ∀ v n fn,
         dt_read_u32 (of_tree pf) (of_node dev) "smc-id" = inr v →
         dt_paths (of_tree pf) !! "/psci" = Some n →
         invoke_scmi_smc_fn w = Some fn →
         ret = 0) ∧
    (ret = 0 →
       List.filter is_smc_id_access evs =
         [EvOfReadU32 (of_node dev) "smc-id"] ∧
       ∃ ci' p si,
         chans w' !! c = Some ci' ∧ transport_info ci' = Some p ∧
         smcs w' !! p = Some si ∧
         inr (smc_func_id si) =
           dt_read_u32 (of_tree pf) (of_node dev) "smc-id").
Proof.
  intros Hc. unfold shmem_node_of. setup_paths Hc.
  all: split; [only_smc_id_read|].
  all: split; [intros ?; no_other_smc_id_access|].
  all: split;
    [intros ? ? ? ?; first
       [ done
       | simplify_eq; first
           [ mapping_granted
           | (split; [reflexivity|intros; simplify_eq; done]) ] ]|].
  all: try (intros ?; exfalso; (lia || done)).
  all: intros _; split; [reflexivity|]; eexists _, _, _;
    rewrite ?insert_insert_eq, ?lookup_insert_eq.
  all: do 3 (split; [reflexivity|]).
  all: cbn; f_equal; apply to_u32_id;
    match goal with
    | H : dt_read_u32 _ _ _ = inr _ |- _ => apply (dt_read_u32_range _ _ _ _ H)
    end.
Qed.

(** ** Sending *)

(** C2. On a set-up channel [smc_send_message] delivers to
    [scmi_rx_callback] exactly once, whatever status the firmware returns: the
    call appends four events to the log (the message is prepared, the conduit
    is called, the header is read back, the callback is run), the callback
    gets the channel's upper-channel handle and the header that the area holds
    after the firmware has written it. *)
Theorem rx_callback_exactly_once pf w c p si a xfer :
  chan_ready w c p si a →
  ∃ ret w' fn r0 area,
    smc_send_message pf (Some c) xfer w = Some (ret, w') ∧
    invoke_scmi_smc_fn w = Some fn ∧
    iomem w !! a = Some r0 ∧
    area = (firmware_reply pf fn si a r0 xfer w).2 a ∧
    iomem w' !! a = Some area ∧
    trace w' =
      trace w ++
        [EvShmemTxPrepare a; conduit_event fn (send_args pf si);
         EvShmemReadHeader a;
         EvRxCallback (Some c) (region_read_header area)] ∧
    List.filter is_rx_callback (drop (length (trace w)) (trace w')) =
      [EvRxCallback (Some c) (region_read_header area)].
Proof.
  intros [(ci & Hc & Ht) Hs Hback Ha [r0 Hr] [fn Hf] _ _].
  eexists _, _, fn, r0, _.
  split; [by apply (smc_send_message_run pf w c ci p si a r0 fn)|].
  assert (Htrace := trace_world_after_send pf fn si a r0 xfer w).
  rewrite Hback in Htrace.
  repeat split; try done.
  - rewrite iomem_world_after_send. by rewrite decide_True.
  - rewrite Htrace, drop_app_length. by destruct fn.
Qed.

(** C6. On a set-up channel [smc_send_message] calls the conduit once, with
    eight arguments: the stored function identifier, the stored protocol
    identifier (as the [unsigned long] it converts to, which reads back as the
    same [int] and is the same number when it is not negative) and six zeros.
    Of the result registers only the first matters: clearing the other three
    changes neither the status nor the world the call leaves. *)
Theorem conduit_call_arguments pf w c p si a xfer :
  chan_ready w c p si a →
  ∃ ret w' fn args,
    smc_send_message pf (Some c) xfer w = Some (ret, w') ∧
    invoke_scmi_smc_fn w = Some fn ∧
    List.filter is_conduit_call (drop (length (trace w)) (trace w')) =
      [conduit_event fn args] ∧
    args =
      [smc_func_id si; to_ulong (abi pf) (smc_prot_id si); 0; 0; 0; 0; 0; 0] ∧
    to_int (to_ulong (abi pf) (smc_prot_id si)) = smc_prot_id si ∧
    (0 <= smc_prot_id si →
       to_ulong (abi pf) (smc_prot_id si) = smc_prot_id si) ∧
    smc_send_message (mask_results pf) (Some c) xfer w = Some (ret, w').
Proof.
  intros [(ci & Hc & Ht) Hs Hback Ha [r0 Hr] [fn Hf] Hfid Hpid].
  eexists _, _, fn, _.
  split; [by apply (smc_send_message_run pf w c ci p si a r0 fn)|].
  split; [done|]. split; [|split; [|split; [|split]]].
  - rewrite trace_world_after_send, drop_app_length. by destruct fn.
  - unfold send_args. by rewrite (to_ulong_u32 _ _ Hfid).
  - rewrite to_int_to_ulong. by apply to_int_id.
  - intros Hpos. apply Z.mod_small. unfold is_int in Hpid.
    destruct (abi pf); simpl; lia.
  - rewrite (smc_send_message_run _ w c ci p si a r0 fn) by done.
    by destruct fn.
Qed.

(** C1 (amended). The status [smc_send_message] returns is decided by the
    conduit's return value converted to [int], that is by its low 32 bits read
    as a signed number: 0 when that number is strictly positive, the number
    itself when it is negative, and never a positive number.  When the value
    the conduit returns, read as a signed register-width number, fits an
    [int], that number and its conversion agree, so the status is 0 for a
    strictly positive return and the return itself for a negative one. *)
Theorem smc_send_message_status pf w c p si a r0 fn xfer :
  chan_ready w c p si a →
  iomem w !! a = Some r0 →
  invoke_scmi_smc_fn w = Some fn →
  let r := a0 (firmware_reply pf fn si a r0 xfer w).1 in
  ∃ ret w',
    smc_send_message pf (Some c) xfer w = Some (ret, w') ∧
    (0 < to_int r → ret = 0) ∧
    (to_int r < 0 → ret = to_int r) ∧
    ¬ 0 < ret ∧
    (is_int (to_long (abi pf) r) →
       (0 < to_long (abi pf) r → ret = 0) ∧
       (to_long (abi pf) r < 0 → ret = to_long (abi pf) r)).
Proof.
  intros [(ci & Hc & Ht) Hs _ Ha _ _ _ _] Hr Hf r.
  eexists _, _.
  split; [by apply (smc_send_message_run pf w c ci p si a r0 fn)|].
  fold r.
  assert (Hpos : 0 < to_int r → send_status r = 0).
  { unfold send_status. destruct (Z.ltb_spec 0 (to_int r)); lia. }
  assert (Hneg : to_int r < 0 → send_status r = to_int r).
  { unfold send_status. destruct (Z.ltb_spec 0 (to_int r)); lia. }
  pose proof (send_status_nonpos r) as Hle.
  split; [done|]. split; [done|]. split; [lia|].
  intros Hfit. rewrite <- (to_int_of_long _ _ Hfit). by split.
Qed.

(** ** Teardown *)


(** ** The attributes of a set-up channel *)

Lemma run_op_preserves pf w c p si a op :
  chan_ready w c p si a →
  ∃ w',
    run_op pf (Some c) op w = Some (tt, w') ∧
    chan_ready w' c p si a ∧ chans w' = chans w ∧ smcs w' = smcs w.
Proof.
  intros Hready.
  destruct Hready as [(ci & Hc & Ht) Hs Hback Ha [r0 Hr] [fn Hf] Hfid Hpid].
  assert (Hkeep : ∀ w',
    chans w' = chans w → smcs w' = smcs w →
    invoke_scmi_smc_fn w' = invoke_scmi_smc_fn w →
    is_Some (iomem w' !! a) →
    chan_ready w' c p si a ∧ chans w' = chans w ∧ smcs w' = smcs w).
  { intros w' Hchans Hsmcs Hinv Hmap. split; [|by split].
    split; try done.
    - exists ci. by rewrite Hchans.
    - by rewrite Hsmcs.
    - by rewrite Hinv, Hf. }
  destruct op as [xfer|ret|xfer|xfer]; unfold run_op.
  - exists (world_after_send pf fn si a r0 xfer w). split.
    + unfold mbind, M_bind.
      by rewrite (smc_send_message_run pf w c ci p si a r0 fn).
    + apply Hkeep; try done.
      rewrite iomem_world_after_send, decide_True by done. by eexists.
  - exists w. split; [done|]. apply Hkeep; first [done | by eexists].
  - eexists. split.
    + unfold mbind, M_bind.
      by rewrite (smc_fetch_response_run w c ci p si a r0).
    + apply Hkeep; first [done | by eexists].
  - eexists. split.
    + unfold mbind, M_bind.
      by rewrite (smc_poll_done_run w c ci p si a r0).
    + apply Hkeep; first [done | by eexists].
Qed.

Lemma run_ops_preserve pf c p si a ops : ∀ w,
  chan_ready w c p si a →
  ∃ w',
    run_ops pf (Some c) ops w = Some (tt, w') ∧
    chan_ready w' c p si a ∧ chans w' = chans w ∧ smcs w' = smcs w.
Proof.
  induction ops as [|op ops IH]; intros w Hready.
  - exists w. split; [done|]. by split.
  - destruct (run_op_preserves pf w c p si a op Hready)
      as (w1 & Hop & Hready1 & Hchans1 & Hsmcs1).
    destruct (IH w1 Hready1) as (w' & Hrest & Hready' & Hchans' & Hsmcs').
    exists w'. split.
    + simpl. unfold mbind, M_bind. by rewrite Hop.
    + split; [done|]. split; congruence.
Qed.

(** C8. After a successful [smc_chan_setup] the upper channel points to a
    transport object, and whatever sequence of [smc_send_message],
    [smc_mark_txdone], [smc_fetch_response] and [smc_poll_done] then runs on
    the channel, every one of them returns and the object still holds the same
    four attributes (shared-memory pointer, function identifier, protocol
    identifier, back-reference), under the same transport-private handle. *)
Theorem channel_attributes_immutable pf w0 c dev prot_id w :
  smc_chan_setup pf (Some c) dev prot_id true w0 = Some (0, w) →
  ∃ ci p si,
    chans w !! c = Some ci ∧ transport_info ci = Some p ∧
    smcs w !! p = Some si ∧
    ∀ ops, ∃ w',
      run_ops pf (Some c) ops w = Some (tt, w') ∧
      chans w' !! c = Some ci ∧ smcs w' !! p = Some si.
Proof.
  intros Hsetup.
  destruct (chans w0 !! c) as [ci0|] eqn:Hc.
  2:{ unfold smc_chan_setup in Hsetup. munfold. cbn in Hsetup.
      by rewrite Hc in Hsetup. }
  destruct (smc_chan_setup_spec pf w0 c ci0 dev prot_id Hc)
    as (ret & w' & evs & Hrun & _ & _ & Hdone & _).
  rewrite Hsetup in Hrun. injection Hrun as <- <-.
  destruct (Hdone eq_refl) as (p & si & a & Hd).
  pose proof (setup_done_ready _ _ _ _ _ _ _ _ _ _ Hd) as Hready.
  destruct (ready_chan _ _ _ _ _ Hready) as (ci & Hci & Hp).
  exists ci, p, si. split; [done|]. split; [done|].
  split; [apply (ready_smc _ _ _ _ _ Hready)|].
  intros ops.
  destruct (run_ops_preserve pf c p si a ops w Hready)
    as (w' & Hops & Hready' & Hchans & Hsmcs).
  exists w'. split; [done|]. rewrite Hchans, Hsmcs.
  split; [done|]. apply (ready_smc _ _ _ _ _ Hready).
Qed.

(** * The claims on the concrete platform *)

Lemma scenario_ready :
  chan_ready Scenario.ready Scenario.cinfo 0%nat Scenario.smc_object 0x93f000.
Proof. split; first [done | by eexists]. Defined.

(** Setup on the concrete platform: the shmem reference is found in the upper
    channel's node, which carries an smc-id of its own (0x82000010); the
    identifier stored is the transport node's (0xC20000FE). *)
Example scenario_setup :
  ∃ w,
    smc_chan_setup (Scenario.board LP64 0) (Some Scenario.cinfo)
      Scenario.scmi_dev 0x14 true Scenario.boot = Some (0, w) ∧
    w = set_trace (trace w) Scenario.ready ∧
    dt_parse_phandle Scenario.tree (Some Scenario.channel_node) "shmem" 0 =
      Some Scenario.shmem_node.
Proof. eexists. split; [vm_compute; reflexivity|]. by vm_compute. Defined.

(** On the concrete platform the upper channel's node provides the shmem
    reference and carries an smc-id of its own (0x82000010); the setup
    returns 0, reads smc-id once, on the transport node, and stores the
    transport node's identifier (0xC20000FE). *)
Lemma smc_id_read_from_transport_node_witness :
  ∃ w' evs ci' p si,
    smc_chan_setup (Scenario.board LP64 0) (Some Scenario.cinfo)
      Scenario.scmi_dev 0x14 true Scenario.boot = Some (0, w') ∧
    trace w' = trace Scenario.boot ++ evs ∧
    dt_parse_phandle Scenario.tree (Some Scenario.channel_node) "shmem" 0 =
      Some Scenario.shmem_node ∧
    dt_read_u32 Scenario.tree (Some Scenario.channel_node) "smc-id" =
      inr 0x82000010 ∧
    List.filter is_smc_id_access evs =
      [EvOfReadU32 (Some Scenario.transport_node) "smc-id"] ∧
    EvOfReadU32 (Some Scenario.transport_node) "smc-id" ∈ evs ∧
    (∀ e, e ∈ evs →
       property_access e ≠ Some (Some Scenario.channel_node, "smc-id")) ∧
    chans w' !! Scenario.cinfo = Some ci' ∧ transport_info ci' = Some p ∧
    smcs w' !! p = Some si ∧ smc_func_id si = 0xC20000FE.
Proof.
  destruct (smc_id_read_from_transport_node (Scenario.board LP64 0)
              Scenario.boot Scenario.cinfo
              {| chan_dev := Scenario.chan_device; transport_info := None |}
              Scenario.scmi_dev 0x14 eq_refl)
    as (ret & w' & evs & Hrun & Htrace & _ & Hnot & _ & Hok).
  assert (Hret : ret = 0).
  { eassert (H0 : smc_chan_setup (Scenario.board LP64 0) (Some Scenario.cinfo)
                    Scenario.scmi_dev 0x14 true Scenario.boot = Some (0, _))
      by (vm_compute; reflexivity).
    rewrite H0 in Hrun. by injection Hrun. }
  subst ret.
  destruct (Hok eq_refl) as (Hread & ci' & p & si & Hci & Hp & Hsi & Hid).
  vm_compute in Hid. injection Hid as Hid.
  exists w', evs, ci', p, si.
  split; [exact Hrun|]. split; [exact Htrace|].
  split; [vm_compute; reflexivity|]. split; [vm_compute; reflexivity|].
  split; [exact Hread|].
  split; [exact (filter_singleton_elem _ _ _ Hread)|].
  split; [apply Hnot; discriminate|].
  split; [exact Hci|]. split; [exact Hp|]. split; [exact Hsi|]. exact Hid.
Defined.

(** Scenario C of the specification: the firmware returns -5 (as an
    [unsigned long]) and the status is -5. *)
Lemma smc_send_message_status_witness :
  ∃ w',
    smc_send_message (Scenario.board LP64 (2 ^ 64 - 5)) (Some Scenario.cinfo)
      Scenario.xfer Scenario.ready = Some (-5, w').
Proof.
  destruct (smc_send_message_status (Scenario.board LP64 (2 ^ 64 - 5))
              Scenario.ready Scenario.cinfo 0%nat Scenario.smc_object 0x93f000
              Scenario.idle_area fn_smc Scenario.xfer
              scenario_ready eq_refl eq_refl)
    as (ret & w' & Hrun & _ & Hneg & _).
  exists w'. rewrite Hrun. f_equal. f_equal. apply Hneg. reflexivity.
Defined.

(** C1 as stated fails on arm64: the firmware returns 0x80000000, which is
    strictly positive as an [unsigned long] and as a signed 64-bit number, and
    the status is not 0 but -2147483648. *)
Lemma smc_send_message_status_counterexample :
  chan_ready Scenario.ready Scenario.cinfo 0%nat Scenario.smc_object 0x93f000 ∧
  a0 (firmware_reply (Scenario.board LP64 (2 ^ 31)) fn_smc Scenario.smc_object
        0x93f000 Scenario.idle_area Scenario.xfer Scenario.ready).1 = 2 ^ 31 ∧
  is_ulong LP64 (2 ^ 31) ∧
  0 < to_long LP64 (2 ^ 31) ∧
  fst <$> smc_send_message (Scenario.board LP64 (2 ^ 31))
            (Some Scenario.cinfo) Scenario.xfer Scenario.ready =
    Some (- 2147483648) ∧
  fst <$> smc_send_message (Scenario.board LP64 (2 ^ 31))
            (Some Scenario.cinfo) Scenario.xfer Scenario.ready ≠ Some 0.
Proof.
  split; [exact scenario_ready|].
  split; [reflexivity|].
  split; [by vm_compute|].
  split; [reflexivity|].
  split; by vm_compute.
Qed.

(** Scenario B of the specification: a status of 1 is reported as 0. *)
Example smc_send_message_status_positive :
  fst <$> smc_send_message (Scenario.board LP64 1) (Some Scenario.cinfo)
            Scenario.xfer Scenario.ready = Some 0.
Proof. by vm_compute. Qed.

(** The other half of C1 as stated fails on arm64 too: 0xFFFFFFFF00000001 is
    negative as a signed 64-bit number, and the status is 0. *)
Example smc_send_message_status_negative_long :
  let pf := Scenario.board LP64 (2 ^ 64 - 2 ^ 32 + 1) in
  to_long (abi pf) (2 ^ 64 - 2 ^ 32 + 1) = - 4294967295 ∧
  fst <$> smc_send_message pf (Some Scenario.cinfo) Scenario.xfer
            Scenario.ready = Some 0.
Proof. by vm_compute. Qed.

(** On 32-bit ARM the conversion to [int] loses nothing. *)
Example smc_send_message_status_ilp32 r :
  to_int r = to_long ILP32 r.
Proof. reflexivity. Qed.

Lemma rx_callback_exactly_once_witness :
  ∃ ret w',
    smc_send_message (Scenario.board LP64 (2 ^ 64 - 5)) (Some Scenario.cinfo)
      Scenario.xfer Scenario.ready = Some (ret, w') ∧
    List.filter is_rx_callback (trace w') =
      [EvRxCallback (Some Scenario.cinfo) 0x00010014].
Proof.
  destruct (rx_callback_exactly_once (Scenario.board LP64 (2 ^ 64 - 5))
              Scenario.ready Scenario.cinfo 0%nat Scenario.smc_object 0x93f000
              Scenario.xfer scenario_ready)
    as (ret & w' & fn & r0 & area & Hrun & Hfn & Hr0 & Harea & _ & _ & Hone).
  exists ret, w'. split; [exact Hrun|].
  injection Hfn as <-. injection Hr0 as <-. rewrite Harea in Hone.
  exact Hone.
Defined.

Lemma conduit_call_arguments_witness :
  ∃ ret w',
    smc_send_message (Scenario.board LP64 0) (Some Scenario.cinfo)
      Scenario.xfer Scenario.ready = Some (ret, w') ∧
    List.filter is_conduit_call (trace w') =
      [EvSmcccSmc [0xC20000FE; 0x14; 0; 0; 0; 0; 0; 0]].
Proof.
  destruct (conduit_call_arguments (Scenario.board LP64 0)
              Scenario.ready Scenario.cinfo 0%nat Scenario.smc_object 0x93f000
              Scenario.xfer scenario_ready)
    as (ret & w' & fn & args & Hrun & Hfn & Hone & Hargs & _).
  exists ret, w'. split; [exact Hrun|].
  injection Hfn as <-. rewrite Hargs in Hone. exact Hone.
Defined.


Lemma channel_attributes_immutable_witness :
  ∃ w ci p si,
    smc_chan_setup (Scenario.board LP64 0) (Some Scenario.cinfo)
      Scenario.scmi_dev 0x14 true Scenario.boot = Some (0, w) ∧
    chans w !! Scenario.cinfo = Some ci ∧ transport_info ci = Some p ∧
    smcs w !! p = Some si ∧
    ∃ w',
      run_ops (Scenario.board LP64 0) (Some Scenario.cinfo)
        [OpSendMessage Scenario.xfer; OpPollDone Scenario.xfer;
         OpFetchResponse Scenario.xfer; OpMarkTxdone 0] w = Some (tt, w') ∧
      chans w' !! Scenario.cinfo = Some ci ∧ smcs w' !! p = Some si.
Proof.
  destruct scenario_setup as (w & Hsetup & _).
  destruct (channel_attributes_immutable (Scenario.board LP64 0) Scenario.boot
              Scenario.cinfo Scenario.scmi_dev 0x14 w Hsetup)
    as (ci & p & si & Hchan & Hinfo & Hsmc & Hops).
  exists w, ci, p, si. repeat (split; [done|]). apply Hops.
Defined.

(** * Beyond the claims *)

(** ** More on channel setup *)

Lemma map_area_keeps pf start w k r :
  iomem w !! k = Some r → iomem (map_area pf start w) !! k = Some r.
Proof.
  intros Hk. unfold map_area. cbn. rewrite lookup_insert.
  case_decide; [subst; by rewrite Hk|done].
Qed.

Lemma insert_fresh_keeps (w : world) (x : scmi_smc) (m : gmap ptr scmi_smc)
    p s :
  smcs w !! p = Some s →
  m !! p = Some s →
  <[fresh (dom (smcs w)) := x]> m !! p = Some s.
Proof.
  intros Hp Hm. rewrite lookup_insert_ne; [done|].
  intros <-. by rewrite fresh_smc in Hp.
Qed.

Lemma smc_chan_setup_frame pf w c ci dev prot :
  chans w !! c = Some ci →
  ∃ ret w' evs,
    smc_chan_setup pf (Some c) dev prot true w = Some (ret, w') ∧
    trace w' = trace w ++ evs ∧
    (∀ p s, smcs w !! p = Some s → smcs w' !! p = Some s) ∧
    (∀ c', c' ≠ c → chans w' !! c' = chans w !! c') ∧
    (∀ k r, iomem w !! k = Some r → iomem w' !! k = Some r) ∧
    (∀ fn, invoke_scmi_smc_fn w = Some fn → invoke_scmi_smc_fn w' = Some fn) ∧
    (ret ≠ 0 →
       ret < 0 ∧ chans w' = chans w ∧
       invoke_scmi_smc_fn w' = invoke_scmi_smc_fn w).
Proof.
  intros Hc. setup_paths Hc.
  all: split;
    [let Hp := fresh in intros ? ? Hp; repeat apply insert_fresh_keeps; done|].
  all: split; [intros ? ?; by rewrite ?lookup_insert_ne|].
  all: split; [intros ? ? ?; first [done | by apply map_area_keeps]|].
  all: split; [intros ? ?; first [done | congruence]|].
  all: try (intros _; repeat split; first [done | lia]).
  all: intros Hret; by destruct Hret.
Qed.

(** A failed setup reports a negative error code, installs no transport
    object on any channel descriptor and leaves the conduit pointer as it
    was. *)
Theorem smc_chan_setup_failure_is_clean pf w c ci dev prot_id :
  chans w !! c = Some ci →
  ∃ ret w',
    smc_chan_setup pf (Some c) dev prot_id true w = Some (ret, w') ∧
    (ret ≠ 0 →
       ret < 0 ∧ chans w' = chans w ∧
       invoke_scmi_smc_fn w' = invoke_scmi_smc_fn w).
Proof.
  intros Hc.
  destruct (smc_chan_setup_frame pf w c ci dev prot_id Hc)
    as (ret & w' & evs & Hrun & _ & _ & _ & _ & _ & Hfail).
  by exists ret, w'.
Qed.

(** Scenario E of the specification: the method is "trap". *)
Lemma smc_chan_setup_failure_is_clean_witness :
  ∃ w',
    smc_chan_setup Variants.board_trap (Some Scenario.cinfo)
      Scenario.scmi_dev 0x14 true Scenario.boot = Some (- EINVAL, w') ∧
    chans w' = chans Scenario.boot ∧ invoke_scmi_smc_fn w' = None.
Proof.
  destruct (smc_chan_setup_failure_is_clean Variants.board_trap Scenario.boot
              Scenario.cinfo
              {| chan_dev := Scenario.chan_device; transport_info := None |}
              Scenario.scmi_dev 0x14 eq_refl)
    as (ret & w' & Hrun & Hfail).
  assert (Hret : ret = - EINVAL).
  { revert Hrun. vm_compute. by intros [= <- _]. }
  subst ret. exists w'. split; [exact Hrun|].
  destruct Hfail as (_ & Hchans & Hinv); [done|]. by split.
Defined.

(** Whatever its outcome, setup keeps every transport object that existed,
    every other channel descriptor, the contents of every area already
    mapped, and a conduit that was already chosen. *)
Theorem smc_chan_setup_preserves pf w c ci dev prot_id :
  chans w !! c = Some ci →
  ∃ ret w',
    smc_chan_setup pf (Some c) dev prot_id true w = Some (ret, w') ∧
    (∀ p s, smcs w !! p = Some s → smcs w' !! p = Some s) ∧
    (∀ c', c' ≠ c → chans w' !! c' = chans w !! c') ∧
    (∀ k r, iomem w !! k = Some r → iomem w' !! k = Some r) ∧
    (∀ fn, invoke_scmi_smc_fn w = Some fn → invoke_scmi_smc_fn w' = Some fn).
Proof.
  intros Hc.
  destruct (smc_chan_setup_frame pf w c ci dev prot_id Hc)
    as (ret & w' & evs & Hrun & _ & Hsmcs & Hchans & Hmem & Hinv & _).
  by exists ret, w'.
Qed.

Lemma smc_chan_setup_preserves_witness :
  ∃ ret w',
    smc_chan_setup (Scenario.board LP64 0) (Some Variants.other)
      Scenario.scmi_dev 0x15 true Variants.two_channels = Some (ret, w') ∧
    smcs w' !! 0%nat = Some Scenario.smc_object ∧
    chans w' !! Scenario.cinfo = chans Variants.two_channels !! Scenario.cinfo ∧
    iomem w' !! 0x93f000 = Some Scenario.idle_area ∧
    invoke_scmi_smc_fn w' = Some fn_smc.
Proof.
  destruct (smc_chan_setup_preserves (Scenario.board LP64 0)
              Variants.two_channels Variants.other
              {| chan_dev := Scenario.chan_device; transport_info := None |}
              Scenario.scmi_dev 0x15 eq_refl)
    as (ret & w' & Hrun & Hsmcs & Hchans & Hmem & Hinv).
  exists ret, w'. split; [exact Hrun|].
  split; [by apply Hsmcs|]. split; [by apply Hchans|].
  split; [by apply Hmem|by apply Hinv].
Defined.

(** The shared-memory node is looked for in the upper channel's node first
    and in the transport device's node only when the first has no "shmem"
    reference; the node found (NULL when neither has one) is the one
    translated. *)
Theorem smc_chan_setup_shmem_lookup_order pf w c ci dev prot_id :
  chans w !! c = Some ci →
  kzalloc_ok pf w = true →
  ∃ ret w' evs,
    smc_chan_setup pf (Some c) dev prot_id true w = Some (ret, w') ∧
    trace w' = trace w ++ evs ∧
    List.filter is_shmem_lookup evs =
      match dt_parse_phandle (of_tree pf) (of_node (chan_dev ci)) "shmem" 0
      with
      | Some n =>
          [EvOfParsePhandle (of_node (chan_dev ci)) "shmem" 0;
           EvOfAddressToResource (Some n) 0]
      | None =>
          [EvOfParsePhandle (of_node (chan_dev ci)) "shmem" 0;
           EvOfParsePhandle (of_node dev) "shmem" 0;
           EvOfAddressToResource
             (dt_parse_phandle (of_tree pf) (of_node dev) "shmem" 0) 0]
      end.
Proof.
  intros Hc Halloc. setup_paths Hc.
  all: first [congruence | reflexivity].
Qed.

Lemma smc_chan_setup_shmem_lookup_order_witness :
  ∃ ret w' evs,
    smc_chan_setup (Scenario.board LP64 0) (Some Scenario.cinfo)
      Scenario.scmi_dev 0x14 true Scenario.boot = Some (ret, w') ∧
    trace w' = trace Scenario.boot ++ evs ∧
    List.filter is_shmem_lookup evs =
      [EvOfParsePhandle (Some Scenario.channel_node) "shmem" 0;
       EvOfAddressToResource (Some Scenario.shmem_node) 0].
Proof.
  exact (smc_chan_setup_shmem_lookup_order (Scenario.board LP64 0)
           Scenario.boot Scenario.cinfo
           {| chan_dev := Scenario.chan_device; transport_info := None |}
           Scenario.scmi_dev 0x14 eq_refl eq_refl).
Defined.

(** The transport object and the mapping are device-managed resources of the
    transport device, not of the upper channel's device.  Every mapping is
    requested at the start of the translated range, with the size of that
    range in the width of resource_size_t (end - start + 1, modulo 2^bits);
    once the object is allocated and the range translates, that mapping is
    requested; and the shared-memory pointer stored on success is that
    mapping. *)
Theorem smc_chan_setup_maps_whole_resource pf w c ci dev prot_id :
  chans w !! c = Some ci →
  ∃ ret w' evs,
    smc_chan_setup pf (Some c) dev prot_id true w = Some (ret, w') ∧
    trace w' = trace w ++ evs ∧
    (∀ d p, EvKzalloc d p ∈ evs → d = dev) ∧
    (∀ d start size p, EvIoremap d start size p ∈ evs →
       d = dev ∧
       ∃ res,
         dt_address_to_resource (of_tree pf)
           (shmem_node_of pf (chan_dev ci) dev) 0 = inr res ∧
         start = res_start res ∧
         size = resource_size (phys_addr_bits pf) res ∧
         size = (res_end res - res_start res + 1) mod 2 ^ phys_addr_bits pf) ∧
    (kzalloc_ok pf w = true →
     ∀ res,
       dt_address_to_resource (of_tree pf)
         (shmem_node_of pf (chan_dev ci) dev) 0 = inr res →
       ∃ p,
         EvIoremap dev (res_start res)
           ((res_end res - res_start res + 1) mod 2 ^ phys_addr_bits pf) p
           ∈ evs) ∧
    (ret = 0 →
       ∃ ci' p si res,
         chans w' !! c = Some ci' ∧ transport_info ci' = Some p ∧
         smcs w' !! p = Some si ∧
         dt_address_to_resource (of_tree pf)
           (shmem_node_of pf (chan_dev ci) dev) 0 = inr res ∧
         smc_shmem si = Some (res_start res) ∧
         EvIoremap dev (res_start res) (resource_size (phys_addr_bits pf) res)
           (Some (res_start res)) ∈ evs).
Proof.
  intros Hc. unfold shmem_node_of. setup_paths Hc.
  all: split; [ev ltac:(done)|].
  all: split; [ev ltac:(by eauto 6)|].
  all: split;
    [intros ? ? ?; first
       [ done
       | simplify_eq; eexists; rewrite <- resource_size_mod;
         repeat first [apply list_elem_of_here | apply list_elem_of_further] ]|].
  all: try (intros ?; exfalso; (lia || done)).
  all: intros _; eexists _, _, _, _;
    rewrite ?insert_insert_eq, ?lookup_insert_eq.
  all: do 5 (split; [reflexivity|]).
  all: repeat first [apply list_elem_of_here | apply list_elem_of_further].
Qed.

(** On the concrete platform the range 0x93f000-0x93ffff is mapped whole:
    4096 bytes at 0x93f000, and the pointer stored is 0x93f000. *)
Lemma smc_chan_setup_maps_whole_resource_witness :
  ∃ w' evs ci' p si,
    smc_chan_setup (Scenario.board LP64 0) (Some Scenario.cinfo)
      Scenario.scmi_dev 0x14 true Scenario.boot = Some (0, w') ∧
    trace w' = trace Scenario.boot ++ evs ∧
    EvIoremap Scenario.scmi_dev 0x93f000 0x1000 (Some 0x93f000) ∈ evs ∧
    chans w' !! Scenario.cinfo = Some ci' ∧ transport_info ci' = Some p ∧
    smcs w' !! p = Some si ∧ smc_shmem si = Some 0x93f000.
Proof.
  destruct (smc_chan_setup_maps_whole_resource (Scenario.board LP64 0)
              Scenario.boot Scenario.cinfo
              {| chan_dev := Scenario.chan_device; transport_info := None |}
              Scenario.scmi_dev 0x14 eq_refl)
    as (ret & w' & evs & Hrun & Htrace & _ & _ & _ & Hok).
  assert (Hret : ret = 0).
  { eassert (H0 : smc_chan_setup (Scenario.board LP64 0) (Some Scenario.cinfo)
                    Scenario.scmi_dev 0x14 true Scenario.boot = Some (0, _))
      by (vm_compute; reflexivity).
    rewrite H0 in Hrun. by injection Hrun. }
  subst ret.
  destruct (Hok eq_refl)
    as (ci' & p & si & res & Hci & Hp & Hsi & Hres & Hshm & Hin).
  vm_compute in Hres. injection Hres as <-.
  exists w', evs, ci', p, si.
  split; [exact Hrun|]. split; [exact Htrace|]. split; [exact Hin|].
  split; [exact Hci|]. split; [exact Hp|]. split; [exact Hsi|]. exact Hshm.
Defined.

(** On success [of_node_put] is called twice, on the shared-memory node and
    on the /psci node.  On failure it is called on the shared-memory node
    only (and not at all when the allocation failed): a setup that fails in
    the resolution of the conduit returns without releasing the /psci node
    it found. *)
Theorem smc_chan_setup_node_put pf w c ci dev prot_id :
  chans w !! c = Some ci →
  ∃ ret w' evs,
    smc_chan_setup pf (Some c) dev prot_id true w = Some (ret, w') ∧
    trace w' = trace w ++ evs ∧
    (ret = 0 →
       List.filter is_node_put evs =
         [EvOfNodePut (shmem_node_of pf (chan_dev ci) dev);
          EvOfNodePut (dt_paths (of_tree pf) !! "/psci")]) ∧
    (ret ≠ 0 →
       List.filter is_node_put evs =
         if kzalloc_ok pf w
         then [EvOfNodePut (shmem_node_of pf (chan_dev ci) dev)] else []).
Proof.
  intros Hc. unfold shmem_node_of. setup_paths Hc.
  all: split; [first [done | intros ?; exfalso; (lia || done)]|].
  all: first [done | intros ?; exfalso; (lia || done)].
Qed.

(** With the method "trap" the /psci node is found and read, and never
    released. *)
Lemma smc_chan_setup_node_put_witness :
  ∃ w' evs,
    smc_chan_setup Variants.board_trap (Some Scenario.cinfo)
      Scenario.scmi_dev 0x14 true Scenario.boot = Some (- EINVAL, w') ∧
    trace w' = trace Scenario.boot ++ evs ∧
    EvOfReadString (Some Scenario.trap_node) "method" ∈ evs ∧
    List.filter is_node_put evs = [EvOfNodePut (Some Scenario.shmem_node)].
Proof.
  destruct (smc_chan_setup_node_put Variants.board_trap Scenario.boot
              Scenario.cinfo
              {| chan_dev := Scenario.chan_device; transport_info := None |}
              Scenario.scmi_dev 0x14 eq_refl)
    as (ret & w' & evs & Hrun & Htrace & _ & Hfail).
  assert (Hret : ret = - EINVAL).
  { revert Hrun. vm_compute. by intros [= <- _]. }
  subst ret. exists w', evs. split; [exact Hrun|]. split; [exact Htrace|].
  split; [|by apply Hfail].
  revert Hrun Htrace. vm_compute. intros [= <-] [= <-].
  repeat first [apply list_elem_of_here | apply list_elem_of_further].
Defined.

(** When the conduit is already chosen, setup reads no method string and
    warns about none, and the conduit stays the one chosen: the outcome of a
    later setup does not depend on the method the device tree names. *)
Theorem smc_chan_setup_conduit_chosen pf w c ci dev prot_id fn :
  chans w !! c = Some ci →
  invoke_scmi_smc_fn w = Some fn →
  ∃ ret w' evs,
    smc_chan_setup pf (Some c) dev prot_id true w = Some (ret, w') ∧
    trace w' = trace w ++ evs ∧
    List.filter is_method_read evs = [] ∧
    invoke_scmi_smc_fn w' = Some fn.
Proof.
  intros Hc Hfn. setup_paths Hc.
  all: try congruence.
  all: split; [done | congruence].
Qed.

(** The hypervisor call was chosen and /psci now names "trap": setup
    succeeds and the hypervisor call stays. *)
Lemma smc_chan_setup_conduit_chosen_witness :
  ∃ w' evs,
    smc_chan_setup Variants.board_trap (Some Scenario.cinfo)
      Scenario.scmi_dev 0x14 true Variants.boot_hvc = Some (0, w') ∧
    trace w' = trace Variants.boot_hvc ++ evs ∧
    List.filter is_method_read evs = [] ∧
    invoke_scmi_smc_fn w' = Some fn_hvc.
Proof.
  destruct (smc_chan_setup_conduit_chosen Variants.board_trap
              Variants.boot_hvc Scenario.cinfo
              {| chan_dev := Scenario.chan_device; transport_info := None |}
              Scenario.scmi_dev 0x14 fn_hvc eq_refl eq_refl)
    as (ret & w' & evs & Hrun & Hrest).
  assert (Hret : ret = 0).
  { revert Hrun. vm_compute. by intros [= <- _]. }
  subst ret. by exists w', evs.
Defined.

(** When no conduit is chosen, a successful setup has read the "method" of
    the node at /psci and chosen the hypervisor call if it is "hvc" and the
    secure-monitor call if it is "smc". *)
Theorem smc_chan_setup_selects_conduit pf w c ci dev prot_id :
  chans w !! c = Some ci →
  invoke_scmi_smc_fn w = None →
  ∃ ret w' evs,
    smc_chan_setup pf (Some c) dev prot_id true w = Some (ret, w') ∧
    trace w' = trace w ++ evs ∧
    (ret = 0 →
       ∃ n method,
         dt_paths (of_tree pf) !! "/psci" = Some n ∧
         dt_read_string (of_tree pf) (Some n) "method" = inr method ∧
         EvOfReadString (Some n) "method" ∈ evs ∧
         ((strcmp "hvc" method = 0 ∧ invoke_scmi_smc_fn w' = Some fn_hvc) ∨
          (strcmp "hvc" method ≠ 0 ∧ strcmp "smc" method = 0 ∧
           invoke_scmi_smc_fn w' = Some fn_smc))).
Proof.
  intros Hc Hnone. setup_paths Hc.
  all: try congruence.
  all: try (intros ?; exfalso; (lia || done)).
  all: intros _; eexists _, _; split; [reflexivity|]; split; [eassumption|].
  all: split;
    [repeat first [apply list_elem_of_here | apply list_elem_of_further]|].
  all: cbn; by eauto.
Qed.

Lemma smc_chan_setup_selects_conduit_witness :
  ∃ w',
    smc_chan_setup (Scenario.board LP64 0) (Some Scenario.cinfo)
      Scenario.scmi_dev 0x14 true Scenario.boot = Some (0, w') ∧
    invoke_scmi_smc_fn w' = Some fn_smc.
Proof.
  destruct (smc_chan_setup_selects_conduit (Scenario.board LP64 0)
              Scenario.boot Scenario.cinfo
              {| chan_dev := Scenario.chan_device; transport_info := None |}
              Scenario.scmi_dev 0x14 eq_refl eq_refl)
    as (ret & w' & evs & Hrun & _ & Hsel).
  assert (Hret : ret = 0).
  { revert Hrun. vm_compute. by intros [= <- _]. }
  subst ret. exists w'. split; [exact Hrun|].
  destruct (Hsel eq_refl) as (n & method & Hn & Hm & _ & Hcase).
  injection Hn as <-. injection Hm as <-.
  destruct Hcase as [[Hhvc _]|(_ & _ & Hsmc)]; [discriminate Hhvc|exact Hsmc].
Defined.

(** The error each failure is reported with: -ENOMEM when the allocation
    fails, the translation's own error when the shared-memory node does not
    translate (nothing is mapped then), -EADDRNOTAVAIL when the mapping
    fails, the read's own error when smc-id cannot be read, -ENODEV when
    there is no /psci node (so that setup cannot succeed without one, even
    with the conduit already chosen), and -EINVAL when the method is neither
    "hvc" nor "smc". *)
Theorem smc_chan_setup_error_codes pf w c ci dev prot_id :
  chans w !! c = Some ci →
  ∃ ret w' evs,
    smc_chan_setup pf (Some c) dev prot_id true w = Some (ret, w') ∧
    trace w' = trace w ++ evs ∧
    (kzalloc_ok pf w = false →
       ret = - ENOMEM ∧ evs = [EvKzalloc dev None]) ∧
    (∀ e,
       kzalloc_ok pf w = true →
       dt_address_to_resource (of_tree pf)
         (shmem_node_of pf (chan_dev ci) dev) 0 = inl e →
       ret = e ∧ iomem w' = iomem w) ∧
    (∀ d start size,
       EvIoremap d start size None ∈ evs →
       ret = - EADDRNOTAVAIL ∧ iomem w' = iomem w) ∧
    (∀ e,
       dt_read_u32 (of_tree pf) (of_node dev) "smc-id" = inl e →
       EvOfReadU32 (of_node dev) "smc-id" ∈ evs →
       ret = e) ∧
    (dt_paths (of_tree pf) !! "/psci" = None →
       ret ≠ 0 ∧
       (EvOfFindNodeByPath "/psci" ∈ evs → ret = - ENODEV)) ∧
    (∀ n method,
       invoke_scmi_smc_fn w = None →
       dt_paths (of_tree pf) !! "/psci" = Some n →
       dt_read_string (of_tree pf) (Some n) "method" = inr method →
       strcmp "hvc" method ≠ 0 → strcmp "smc" method ≠ 0 →
       EvOfFindNodeByPath "/psci" ∈ evs →
       ret = - EINVAL).
Proof.
  intros Hc. unfold shmem_node_of. setup_paths Hc.
  all: split; [first [done | by split]|].
  all: split; [intros ? ? ?; first [done | simplify_eq; by split]|].
  all: split; [ev ltac:(by split)|].
  all: split; [ev ltac:(idtac)|].
  all: split; [intros ?; split; [first [done | lia] | ev ltac:(idtac)]|].
  all: ev ltac:(idtac).
Qed.

(** Scenario D of the specification: there is no /psci node. *)
Lemma smc_chan_setup_error_codes_witness :
  ∃ w' evs,
    smc_chan_setup Variants.board_without_psci (Some Scenario.cinfo)
      Scenario.scmi_dev 0x14 true Scenario.boot = Some (- ENODEV, w') ∧
    trace w' = trace Scenario.boot ++ evs ∧
    EvOfFindNodeByPath "/psci" ∈ evs.
Proof.
  destruct (smc_chan_setup_error_codes Variants.board_without_psci
              Scenario.boot Scenario.cinfo
              {| chan_dev := Scenario.chan_device; transport_info := None |}
              Scenario.scmi_dev 0x14 eq_refl)
    as (ret & w' & evs & Hrun & Htrace & _ & _ & _ & _ & Hpsci & _).
  assert (Hin : EvOfFindNodeByPath "/psci" ∈ evs).
  { revert Hrun Htrace. vm_compute. intros [= _ <-] [= <-].
    repeat first [apply list_elem_of_here | apply list_elem_of_further]. }
  destruct (Hpsci eq_refl) as [_ Hret]. rewrite (Hret Hin) in Hrun.
  by exists w', evs.
Defined.

(** ** Several channels, and a channel set up again *)

(** A setup of another channel, whatever its outcome, leaves a set-up channel
    set up; when it succeeds the two channels have different transport
    objects. *)
Theorem smc_chan_setup_other_channel pf w c1 p1 si1 a1 c2 dev prot_id ret w' :
  chan_ready w c1 p1 si1 a1 →
  c2 ≠ c1 →
  smc_chan_setup pf (Some c2) dev prot_id true w = Some (ret, w') →
  chan_ready w' c1 p1 si1 a1 ∧
  (ret = 0 → ∃ p2 si2 a2, p2 ≠ p1 ∧ chan_ready w' c2 p2 si2 a2).
Proof.
  intros Hready Hne Hsetup.
  destruct (chans w !! c2) as [ci2|] eqn:Hc2.
  2:{ unfold smc_chan_setup in Hsetup. munfold. cbn in Hsetup.
      by rewrite Hc2 in Hsetup. }
  destruct (smc_chan_setup_frame pf w c2 ci2 dev prot_id Hc2)
    as (r1 & w1 & evs & Hrun & _ & Hsmcs & Hchans & Hmem & Hinv & _).
  rewrite Hsetup in Hrun. injection Hrun as <- <-.
  destruct Hready as [(ci & Hc & Ht) Hs Hback Ha [r0 Hr] [fn Hf] Hfid Hpid].
  split.
  - split; try done.
    + exists ci. by rewrite Hchans.
    + by apply Hsmcs.
    + exists r0. by apply Hmem.
    + exists fn. by apply Hinv.
  - intros ->.
    destruct (smc_chan_setup_spec pf w c2 ci2 dev prot_id Hc2)
      as (r2 & w2 & evs2 & Hrun2 & _ & _ & Hdone & _).
    rewrite Hsetup in Hrun2. injection Hrun2 as <- <-.
    destruct (Hdone eq_refl) as (p2 & si2 & a2 & Hd).
    exists p2, si2, a2. split.
    + intros ->. rewrite (done_fresh _ _ _ _ _ _ _ _ _ _ Hd) in Hs. done.
    + by apply (setup_done_ready _ _ _ _ _ _ _ _ _ _ Hd).
Qed.

Lemma smc_chan_setup_other_channel_witness :
  ∃ w',
    smc_chan_setup (Scenario.board LP64 0) (Some Variants.other)
      Scenario.scmi_dev 0x15 true Variants.two_channels = Some (0, w') ∧
    chan_ready w' Scenario.cinfo 0%nat Scenario.smc_object 0x93f000 ∧
    ∃ p2 si2 a2, p2 ≠ 0%nat ∧ chan_ready w' Variants.other p2 si2 a2.
Proof.
  assert (Hready : chan_ready Variants.two_channels Scenario.cinfo 0%nat
                     Scenario.smc_object 0x93f000).
  { split; first [done | by eexists]. }
  destruct (smc_chan_setup (Scenario.board LP64 0) (Some Variants.other)
              Scenario.scmi_dev 0x15 true Variants.two_channels)
    as [[ret w']|] eqn:Hrun; [|by vm_compute in Hrun].
  assert (Hret : ret = 0).
  { revert Hrun. vm_compute. by intros [= <- _]. }
  subst ret. exists w'. split; [reflexivity|].
  destruct (smc_chan_setup_other_channel (Scenario.board LP64 0)
              Variants.two_channels Scenario.cinfo 0%nat Scenario.smc_object
              0x93f000 Variants.other Scenario.scmi_dev 0x15 0 w'
              Hready ltac:(discriminate) Hrun)
    as [Hfirst Hsecond].
  split; [exact Hfirst|by apply Hsecond].
Defined.

(** A channel set up again after its teardown gets a new transport object:
    the old one is still allocated, with its back-reference cleared, and is
    not used again; and the conduit is the one chosen before. *)
Theorem smc_chan_setup_after_free pf w c p si a id data w1 dev prot_id w2 :
  chan_ready w c p si a →
  smc_chan_free id (Some c) data w = Some (0, w1) →
  smc_chan_setup pf (Some c) dev prot_id true w1 = Some (0, w2) →
  ∃ p' si' a',
    p' ≠ p ∧ chan_ready w2 c p' si' a' ∧
    smcs w2 !! p = Some (with_cinfo None si) ∧
    invoke_scmi_smc_fn w2 = invoke_scmi_smc_fn w.
Proof.
  intros Hready Hfree Hsetup.
  destruct Hready as [(ci & Hc & Ht) Hs Hback Ha [r0 Hr] [fn Hf] Hfid Hpid].
  rewrite (smc_chan_free_run w c ci p si) in Hfree by done.
  injection Hfree as <-.
  set (w1 := set_trace _ _) in *.
  assert (Hc1 : chans w1 !! c = Some (with_transport_info None ci)).
  { cbn. by rewrite lookup_insert_eq. }
  assert (Hs1 : smcs w1 !! p = Some (with_cinfo None si)).
  { cbn. by rewrite lookup_insert_eq. }
  destruct (smc_chan_setup_spec pf w1 c _ dev prot_id Hc1)
    as (r2 & w2' & evs2 & Hrun2 & _ & _ & Hdone & _).
  rewrite Hsetup in Hrun2. injection Hrun2 as <- <-.
  destruct (Hdone eq_refl) as (p' & si' & a' & Hd).
  destruct (smc_chan_setup_frame pf w1 c _ dev prot_id Hc1)
    as (r3 & w3 & evs3 & Hrun3 & _ & Hsmcs & _ & _ & Hinv & _).
  rewrite Hsetup in Hrun3. injection Hrun3 as <- <-.
  exists p', si', a'. split; [|split; [|split]].
  - intros ->. rewrite (done_fresh _ _ _ _ _ _ _ _ _ _ Hd) in Hs1. done.
  - by apply (setup_done_ready _ _ _ _ _ _ _ _ _ _ Hd).
  - by apply Hsmcs.
  - rewrite Hf. by apply Hinv.
Qed.

Lemma smc_chan_setup_after_free_witness :
  ∃ w1 w2 p' si' a',
    smc_chan_free 0x14 (Some Scenario.cinfo) None Scenario.ready =
      Some (0, w1) ∧
    smc_chan_setup (Scenario.board LP64 0) (Some Scenario.cinfo)
      Scenario.scmi_dev 0x14 true w1 = Some (0, w2) ∧
    p' ≠ 0%nat ∧ chan_ready w2 Scenario.cinfo p' si' a' ∧
    smcs w2 !! 0%nat = Some (with_cinfo None Scenario.smc_object) ∧
    invoke_scmi_smc_fn w2 = Some fn_smc.
Proof.
  eassert (Hfree :
    smc_chan_free 0x14 (Some Scenario.cinfo) None Scenario.ready =
      Some (0, _)) by (vm_compute; reflexivity).
  match type of Hfree with
  | _ = Some (_, ?w1) =>
      eassert (Hsetup :
        smc_chan_setup (Scenario.board LP64 0) (Some Scenario.cinfo)
          Scenario.scmi_dev 0x14 true w1 = Some (0, _))
        by (vm_compute; reflexivity)
  end.
  destruct (smc_chan_setup_after_free _ _ _ _ _ _ _ _ _ _ _ _
              scenario_ready Hfree Hsetup)
    as (p' & si' & a' & Hrest).
  eexists _, _, p', si', a'.
  split; [exact Hfree|]. split; [exact Hsetup|]. exact Hrest.
Defined.

(** ** Teardown, and what may follow it *)

(** Teardown touches the two pointers and nothing else: the conduit stays
    chosen, the areas stay mapped with their contents, the other channel
    descriptors and transport objects are as they were, and no transport
    object is released (the object of the channel is still allocated). *)
Theorem smc_chan_free_frame w c p si a id data :
  chan_ready w c p si a →
  ∃ w',
    smc_chan_free id (Some c) data w = Some (0, w') ∧
    invoke_scmi_smc_fn w' = invoke_scmi_smc_fn w ∧
    iomem w' = iomem w ∧
    (∀ c', c' ≠ c → chans w' !! c' = chans w !! c') ∧
    (∀ p', p' ≠ p → smcs w' !! p' = smcs w !! p') ∧
    dom (smcs w') = dom (smcs w).
Proof.
  intros [(ci & Hc & Ht) Hs _ _ _ _ _ _].
  eexists. split; [by apply (smc_chan_free_run w c ci p si)|]. cbn.
  split; [done|]. split; [done|].
  split; [intros c' Hne; by rewrite lookup_insert_ne|].
  split; [intros p' Hne; by rewrite lookup_insert_ne|].
  rewrite dom_insert_L. apply elem_of_dom_2 in Hs.
  apply set_eq. intros x. rewrite elem_of_union, elem_of_singleton.
  split; [intros [->|?]; done|by right].
Qed.

Lemma smc_chan_free_frame_witness :
  ∃ w',
    smc_chan_free 0x14 (Some Scenario.cinfo) None Scenario.ready =
      Some (0, w') ∧
    invoke_scmi_smc_fn w' = Some fn_smc ∧
    iomem w' = iomem Scenario.ready ∧
    dom (smcs w') = dom (smcs Scenario.ready).
Proof.
  destruct (smc_chan_free_frame Scenario.ready Scenario.cinfo 0%nat
              Scenario.smc_object 0x93f000 0x14 None scenario_ready)
    as (w' & Hrun & Hinv & Hmem & _ & _ & Hdom).
  by exists w'.
Defined.

(** After teardown the transport-private handle is NULL and no operation of
    the transport checks it: a send, a fetch, a poll or a second teardown on
    the channel dereferences NULL.  Only [smc_mark_txdone], which does
    nothing, may still run. *)
Theorem detached_channel_faults pf w c p si a xfer id data :
  chan_ready w c p si a →
  ∃ w1,
    smc_chan_free id (Some c) data w = Some (0, w1) ∧
    smc_send_message pf (Some c) xfer w1 = None ∧
    smc_fetch_response (Some c) xfer w1 = None ∧
    smc_poll_done (Some c) xfer w1 = None ∧
    smc_chan_free id (Some c) data w1 = None ∧
    smc_mark_txdone (Some c) 0 w1 = Some (tt, w1).
Proof.
  intros [(ci & Hc & Ht) Hs _ _ _ _ _ _].
  eexists. split; [by apply (smc_chan_free_run w c ci p si)|].
  unfold smc_send_message, smc_fetch_response, smc_poll_done, smc_chan_free,
    smc_mark_txdone.
  munfold. cbn. rewrite !lookup_insert_eq. cbn. rewrite ?lookup_insert_eq.
  done.
Qed.

Lemma detached_channel_faults_witness :
  ∃ w1,
    smc_chan_free 0x14 (Some Scenario.cinfo) None Scenario.ready =
      Some (0, w1) ∧
    smc_send_message (Scenario.board LP64 0) (Some Scenario.cinfo)
      Scenario.xfer w1 = None ∧
    smc_fetch_response (Some Scenario.cinfo) Scenario.xfer w1 = None ∧
    smc_poll_done (Some Scenario.cinfo) Scenario.xfer w1 = None ∧
    smc_chan_free 0x14 (Some Scenario.cinfo) None w1 = None ∧
    smc_mark_txdone (Some Scenario.cinfo) 0 w1 = Some (tt, w1).
Proof.
  exact (detached_channel_faults (Scenario.board LP64 0) Scenario.ready
           Scenario.cinfo 0%nat Scenario.smc_object 0x93f000 Scenario.xfer
           0x14 None scenario_ready).
Defined.

(** ** More on sending *)

(** The firmware is called once the message is in the shared area.  Let the
    firmware, called with the arguments of the channel in any world whose
    shared area holds the prepared message, return [status] and leave [area]
    in the shared area; nothing is assumed of what it does in a world whose
    area holds anything else.  Then [smc_send_message] returns the status
    derived from [status], leaves [area] in the shared area, and hands the
    header of [area] to [scmi_rx_callback], once. *)
Theorem send_calls_firmware_on_prepared_message
    pf w c p si a r0 fn xfer status area :
  chan_ready w c p si a →
  iomem w !! a = Some r0 →
  invoke_scmi_smc_fn w = Some fn →
  (∀ W, iomem W !! a = Some (region_tx_prepare r0 xfer) →
     a0 (conduit_insn pf fn (send_args pf si) W).1 = status ∧
     (conduit_insn pf fn (send_args pf si) W).2 a = area) →
  ∃ w',
    smc_send_message pf (Some c) xfer w = Some (send_status status, w') ∧
    iomem w' !! a = Some area ∧
    List.filter is_rx_callback (drop (length (trace w)) (trace w')) =
      [EvRxCallback (Some c) (region_read_header area)].
Proof.
  intros [(ci & Hc & Ht) Hs Hback Ha _ _ _ _] Hr Hf Hfw.
  destruct (Hfw (world_at_call pf fn si a r0 xfer w)) as [Hst Harea].
  { cbn. by rewrite lookup_insert_eq. }
  exists (world_after_send pf fn si a r0 xfer w).
  split.
  { rewrite <- Hst. by apply (smc_send_message_run pf w c ci p si a r0 fn). }
  split.
  { rewrite iomem_world_after_send. rewrite decide_True by done.
    unfold firmware_reply. by rewrite Harea. }
  rewrite trace_world_after_send, drop_app_length, Hback.
  unfold firmware_reply. rewrite Harea.
  by destruct fn.
Qed.

(** The firmware of the concrete platform echoes the header word it finds
    in the area: the header handed to the callback is the header of the
    transfer that was sent. *)
Lemma send_calls_firmware_on_prepared_message_witness :
  ∃ w',
    smc_send_message (Scenario.board LP64 0) (Some Scenario.cinfo)
      Scenario.xfer Scenario.ready = Some (0, w') ∧
    iomem w' !! 0x93f000 =
      Some {| shm_reserved := 0; shm_channel_status := 1; shm_flags := 0;
              shm_length := 8; shm_msg_header := 0x00010014;
              shm_msg_payload := [0; 0; 0; 0] |} ∧
    List.filter is_rx_callback (trace w') =
      [EvRxCallback (Some Scenario.cinfo) 0x00010014].
Proof.
  apply (send_calls_firmware_on_prepared_message (Scenario.board LP64 0)
           Scenario.ready Scenario.cinfo 0%nat Scenario.smc_object
           0x93f000 Scenario.idle_area fn_smc Scenario.xfer 0
           {| shm_reserved := 0; shm_channel_status := 1; shm_flags := 0;
              shm_length := 8; shm_msg_header := 0x00010014;
              shm_msg_payload := [0; 0; 0; 0] |}
           scenario_ready eq_refl eq_refl).
  intros W HW. simpl. rewrite HW. split; reflexivity.
Defined.

(** A poll and a fetch that follow a send read the area as the firmware left
    it, whatever status the send returned, and change nothing but the log:
    the poll tells the state of the status word the firmware wrote, the fetch
    copies out the response the firmware wrote. *)
Theorem poll_and_fetch_after_send pf w c p si a r0 fn xfer x2 :
  chan_ready w c p si a →
  iomem w !! a = Some r0 →
  invoke_scmi_smc_fn w = Some fn →
  let area := (firmware_reply pf fn si a r0 xfer w).2 a in
  ∃ ret w1,
    smc_send_message pf (Some c) xfer w = Some (ret, w1) ∧
    smc_poll_done (Some c) x2 w1 =
      Some (region_poll_done area x2,
            set_trace (trace w1 ++ [EvShmemPollDone a]) w1) ∧
    smc_fetch_response (Some c) x2 w1 =
      Some (region_fetch_response area x2,
            set_trace (trace w1 ++ [EvShmemFetchResponse a]) w1).
Proof.
  intros [(ci & Hc & Ht) Hs _ Ha _ _ _ _] Hr Hf area.
  eexists _, _.
  split; [by apply (smc_send_message_run pf w c ci p si a r0 fn)|].
  assert (Harea :
    iomem (world_after_send pf fn si a r0 xfer w) !! a = Some area).
  { rewrite iomem_world_after_send. by rewrite decide_True. }
  split.
  - by apply (smc_poll_done_run _ c ci p si a area).
  - by apply (smc_fetch_response_run _ c ci p si a area).
Qed.

(** The firmware reports an error (-5), marks the channel free and leaves a
    four-byte response: the poll says done and the fetch gets the four
    bytes. *)
Lemma poll_and_fetch_after_send_witness :
  ∃ w1 w2 w3 response,
    smc_send_message (Scenario.board LP64 (2 ^ 64 - 5)) (Some Scenario.cinfo)
      Scenario.xfer Scenario.ready = Some (-5, w1) ∧
    smc_poll_done (Some Scenario.cinfo) Scenario.xfer w1 = Some (true, w2) ∧
    smc_fetch_response (Some Scenario.cinfo) Scenario.xfer w1 =
      Some (response, w3) ∧
    xfer_rx response = [0; 0; 0; 0] ∧ xfer_rx_len response = 4.
Proof.
  destruct (poll_and_fetch_after_send (Scenario.board LP64 (2 ^ 64 - 5))
              Scenario.ready Scenario.cinfo 0%nat Scenario.smc_object
              0x93f000 Scenario.idle_area fn_smc Scenario.xfer Scenario.xfer
              scenario_ready eq_refl eq_refl)
    as (ret & w1 & Hsend & Hpoll & Hfetch).
  assert (Hret : ret = -5).
  { revert Hsend. vm_compute. by intros [= <- _]. }
  subst ret. eexists w1, _, _, _.
  split; [exact Hsend|]. split; [exact Hpoll|]. split; [exact Hfetch|].
  by split.
Defined.

Lemma to_int_sign_bit r : to_int r < 0 ↔ Z.testbit r 31 = true.
Proof.
  unfold to_int, wrap_signed. change (32 - 1) with 31.
  rewrite <- (Z.mod_pow2_bits_low r 32 31) by lia.
  pose proof (Z.mod_pos_bound r (2 ^ 32) ltac:(lia)) as Hm.
  set (m := r mod 2 ^ 32) in *.
  rewrite Z.testbit_true by lia.
  destruct (Z.ltb_spec m (2 ^ 31)).
  - rewrite Z.div_small by lia. split; [lia|done].
  - replace (m / 2 ^ 31) with 1; [split; [done|lia]|].
    apply Z.div_unique with (r := m - 2 ^ 31); lia.
Qed.

Lemma send_status_sign r :
  (send_status r < 0 ↔ Z.testbit r 31 = true) ∧
  (send_status r = 0 ↔ Z.testbit r 31 = false) ∧
  (send_status r < 0 → send_status r = to_int r).
Proof.
  pose proof (to_int_sign_bit r) as Hbit.
  assert (Hcases :
    (Z.testbit r 31 = true ∧ send_status r = to_int r ∧ to_int r < 0) ∨
    (Z.testbit r 31 = false ∧ send_status r = 0)).
  { unfold send_status. destruct (Z.testbit r 31) eqn:Hb.
    - left. assert (to_int r < 0) by (by apply Hbit).
      destruct (Z.ltb_spec 0 (to_int r)); [lia|done].
    - right. split; [done|].
      destruct (Z.ltb_spec 0 (to_int r)); [done|].
      assert (¬ to_int r < 0) by (intros Hn; by apply Hbit in Hn). lia. }
  destruct Hcases as [(Hb & Hs & Hn)|(Hb & Hs)]; rewrite Hb, Hs;
    repeat split; intros; try done; try lia.
Qed.

(** A send reports an error exactly when bit 31 of the value the conduit
    returns is set, and success (0) exactly when it is clear, whatever the
    other bits are; the error reported is the low 32 bits of the value, less
    2^32. *)
Theorem send_status_sign_bit pf w c p si a r0 fn xfer :
  chan_ready w c p si a →
  iomem w !! a = Some r0 →
  invoke_scmi_smc_fn w = Some fn →
  let r := a0 (firmware_reply pf fn si a r0 xfer w).1 in
  ∃ ret w',
    smc_send_message pf (Some c) xfer w = Some (ret, w') ∧
    (ret < 0 ↔ Z.testbit r 31 = true) ∧
    (ret = 0 ↔ Z.testbit r 31 = false) ∧
    (ret < 0 → ret = Z.land r (2 ^ 32 - 1) - 2 ^ 32).
Proof.
  intros [(ci & Hc & Ht) Hs _ Ha _ _ _ _] Hr Hf r.
  eexists _, _.
  split; [by apply (smc_send_message_run pf w c ci p si a r0 fn)|].
  fold r. destruct (send_status_sign r) as (Hneg & Hzero & Hval).
  split; [done|]. split; [done|].
  intros Hlt. rewrite (Hval Hlt).
  change (2 ^ 32 - 1) with (Z.ones 32). rewrite Z.land_ones by lia.
  rewrite Hval in Hlt by done. unfold to_int, wrap_signed in *.
  destruct (r mod 2 ^ 32 <? 2 ^ (32 - 1)) eqn:E; [|done].
  pose proof (Z.mod_pos_bound r (2 ^ 32) ltac:(lia)). lia.
Qed.

(** The firmware returns 0x1_8000_0000 on arm64: bit 31 is set, and the
    status is -2^31 although the value is positive. *)
Lemma send_status_sign_bit_witness :
  ∃ ret w',
    smc_send_message (Scenario.board LP64 (2 ^ 32 + 2 ^ 31))
      (Some Scenario.cinfo) Scenario.xfer Scenario.ready = Some (ret, w') ∧
    ret < 0 ∧ ret = - 2147483648.
Proof.
  destruct (send_status_sign_bit (Scenario.board LP64 (2 ^ 32 + 2 ^ 31))
              Scenario.ready Scenario.cinfo 0%nat Scenario.smc_object
              0x93f000 Scenario.idle_area fn_smc Scenario.xfer
              scenario_ready eq_refl eq_refl)
    as (ret & w' & Hrun & Hneg & _ & Hval).
  assert (Hlt : ret < 0).
  { apply Hneg. vm_compute. reflexivity. }
  exists ret, w'. split; [exact Hrun|]. split; [exact Hlt|].
  rewrite (Hval Hlt). vm_compute. reflexivity.
Defined.
